(** * Kubernetes Query System: the resource query dispatcher and the agent loop

    A shallow embedding of [tools/kubconnect.py], [llm_agent.py] and
    [llm_agent_langchain.py], and the properties of the dispatcher and of the
    conversation loop that the specification states about them.

    Python code that talks to the outside (the cluster, the CSV file, the
    language model, the tool server) is modelled in a small state-and-exception
    monad: the state holds the local variables a handler can observe and a
    trace of every external effect, and it survives a raised exception, as
    Python's side effects do. The outside itself is a record of functions, one
    field per external call of the source. *)

From Stdlib Require Import String Ascii List ZArith Lia Bool.
From stdpp Require Import base option list strings gmap pretty.
Import ListNotations.
Set Warnings "-register-all".
Local Open Scope string_scope.
Local Open Scope list_scope.

(** ** Python values and exceptions *)

(** The JSON-shaped values that cross the boundaries of the program: what
    [json.loads] returns, what [to_dict()] returns, the arguments of a tool
    call. Numbers are integers; no claim depends on a float. *)
Inductive json : Type :=
| JNull
| JBool (b : bool)
| JNum (n : Z)
| JStr (s : string)
| JList (items : list json)
| JDict (fields : list (string * json)).

(** The exception classes the source names in an [except] clause or can raise
    itself, and [PyException] for every other subclass of [Exception]. *)
Inductive exn : Type :=
| ApiException (body : option string)
| AttributeError (msg : string)
| RequestException (msg : string)
| KeyError (key : string)
| TypeError (msg : string)
| JSONDecodeError (msg : string)
| PyException (msg : string).

(** [str(e)] for the exceptions whose text the source formats. The source
    never formats an [ApiException] with [str]: the dispatcher handles it in
    a clause of its own and the agent only formats a [RequestException]. *)
Definition exn_str (e : exn) : string :=
  match e with
  | ApiException body => "ApiException"
  | AttributeError msg => msg
  | RequestException msg => msg
  | KeyError key => "'" +:+ key +:+ "'"
  | TypeError msg => msg
  | JSONDecodeError msg => msg
  | PyException msg => msg
  end.

(** Truth value of an optional string: [None] and [""] are false. *)
Definition truthy (name : option string) : bool :=
  match name with
  | Some (String _ _) => true
  | _ => false
  end.

(** [str.lower()] on the ASCII letters; the other bytes are kept. *)
Definition lower_ascii (c : ascii) : ascii :=
  let n := nat_of_ascii c in
  if (65 <=? n)%nat && (n <=? 90)%nat then ascii_of_nat (n + 32) else c.

Fixpoint lower (s : string) : string :=
  match s with
  | EmptyString => EmptyString
  | String c rest => String (lower_ascii c) (lower rest)
  end.

(** ** The state-and-exception monad *)

Module Py.
Section WithState.
Context {St : Type}.

Definition M (A : Type) : Type := St -> St * (exn + A).

Definition ret {A} (a : A) : M A := fun s => (s, inr a).

Definition bind {A B} (c : M A) (k : A -> M B) : M B :=
  fun s => match c s with
           | (s', inr a) => k a s'
           | (s', inl e) => (s', inl e)
           end.

Definition raise {A} (e : exn) : M A := fun s => (s, inl e).

(** The result of an external call, which either raised or returned. *)
Definition lift {A} (r : exn + A) : M A := fun s => (s, r).

Definition get : M St := fun s => (s, inr s).

Definition modify (f : St -> St) : M unit := fun s => (f s, inr tt).

(** [try: body except ...: handler]. An exception raised by the handler is
    not handled again. *)
Definition try_except {A} (body : M A) (handler : exn -> M A) : M A :=
  fun s => match body s with
           | (s', inl e) => handler e s'
           | (s', inr a) => (s', inr a)
           end.

End WithState.
End Py.

Declare Scope py_scope.
Delimit Scope py_scope with py.
Notation "x <- c ;; k" := (Py.bind c (fun x => k))
  (at level 100, c at next level, right associativity) : py_scope.
Notation "c ;;; k" := (Py.bind c (fun _ => k))
  (at level 100, right associativity) : py_scope.
Local Open Scope py_scope.

(** ** tools/kubconnect.py *)

Module Kubconnect.

(** The two client objects built by [get_api_map_from_csv]:
    [v1 = client.CoreV1Api()] and [apps_v1 = client.AppsV1Api()]. *)
Inductive api_client : Type := V1 | AppsV1.

(** A live object returned by an API method; the source only calls
    [to_dict()] on it. *)
Record pyobj : Type := { to_dict : exn + json }.

(** Everything outside the function: the kube-config loader, the CSV file,
    the attributes of the two API clients, and the two library functions
    the handlers use. *)
Record World : Type := {
  load_kube_config : string -> exn + unit;
  open_csv : string -> exn + list (gmap string string);
  api_getattr : api_client -> string -> option (list (string * string) -> exn + pyobj);
  json_loads : string -> exn + json;
  py_repr : json -> string
}.

(** The external effects of one call, in order. *)
Inductive event : Type :=
| EvLoadKubeConfig (config_file : string)
| EvReadCsv (filepath : string)
| EvGetattr (api : api_client) (method_name : string)
| EvInvoke (api : api_client) (method_name : string) (kwargs : list (string * string)).

(** The locals of [execute_k8s_query] a handler reads, and the trace. *)
Record frame : Type := {
  events : list event;
  method_name : string
}.

Definition emit (ev : event) : Py.M unit :=
  Py.modify (fun f => {| events := events f ++ [ev]; method_name := method_name f |}).

Definition set_method_name (m : string) : Py.M unit :=
  Py.modify (fun f => {| events := events f; method_name := m |}).

Definition get_method_name : Py.M string :=
  f <- Py.get ;; Py.ret (method_name f).

(** [row[key]] on a [csv.DictReader] row. *)
Definition row_get (row : gmap string string) (key : string) : exn + string :=
  match row !! key with
  | Some v => inr v
  | None => inl (KeyError key)
  end.

(** The [for row in reader] loop of [get_api_map_from_csv]. In the
    assignment [api_map[row['resource']] = (api_client, row['method_suffix'])]
    Python evaluates the right-hand side first. *)
Fixpoint read_rows (rows : list (gmap string string))
    (api_map : gmap string (api_client * string))
    : exn + gmap string (api_client * string) :=
  match rows with
  | [] => inr api_map
  | row :: rest =>
      match row_get row "api_version" with
      | inl e => inl e
      | inr api_version =>
          let selected :=
            if String.eqb api_version "v1" then Some V1
            else if String.eqb api_version "apps_v1" then Some AppsV1
            else None in
          match selected with
          | None => read_rows rest api_map
          | Some client =>
              match row_get row "method_suffix" with
              | inl e => inl e
              | inr suffix =>
                  match row_get row "resource" with
                  | inl e => inl e
                  | inr resource => read_rows rest (<[resource := (client, suffix)]> api_map)
                  end
              end
          end
      end
  end.

Definition get_api_map_from_csv (w : World) (filepath : string)
    : Py.M (gmap string (api_client * string)) :=
  emit (EvReadCsv filepath) ;;;
  rows <- Py.lift (open_csv w filepath) ;;
  Py.lift (read_rows rows ∅).

(** The envelope every return statement of [execute_k8s_query] builds:
    [{'status': ..., 'data': ...}]. *)
Record QueryResult : Type := {
  status : string;
  data : json
}.

(** [getattr(api_client, method_name)]. *)
Definition getattr (w : World) (api : api_client) (m : string)
    : Py.M (list (string * string) -> exn + pyobj) :=
  emit (EvGetattr api m) ;;;
  match api_getattr w api m with
  | Some func => Py.ret func
  | None => Py.raise (AttributeError
      ("'" +:+ (match api with V1 => "CoreV1Api" | AppsV1 => "AppsV1Api" end)
           +:+ "' object has no attribute '" +:+ m +:+ "'"))
  end.

(** The call [func] applied to the keyword arguments [kwargs]. *)
Definition invoke (api : api_client) (m : string)
    (func : list (string * string) -> exn + pyobj) (kwargs : list (string * string))
    : Py.M pyobj :=
  emit (EvInvoke api m kwargs) ;;;
  Py.lift (func kwargs).

(** [json.loads(e.body)]: a body that is [None] is a [TypeError]. *)
Definition loads_body (w : World) (body : option string) : exn + json :=
  match body with
  | None => inl (TypeError "the JSON object must be str, bytes or bytearray, not NoneType")
  | Some s => json_loads w s
  end.

Fixpoint assoc_get (fields : list (string * json)) (key : string) : option json :=
  match fields with
  | [] => None
  | (k, v) :: rest => if String.eqb k key then Some v else assoc_get rest key
  end.

(** [error_body.get('message')]: only a dict has [get]. *)
Definition body_get (error_body : json) (key : string) : exn + option json :=
  match error_body with
  | JDict fields => inr (assoc_get fields key)
  | JNull => inl (AttributeError "'NoneType' object has no attribute 'get'")
  | JBool _ => inl (AttributeError "'bool' object has no attribute 'get'")
  | JNum _ => inl (AttributeError "'int' object has no attribute 'get'")
  | JStr _ => inl (AttributeError "'str' object has no attribute 'get'")
  | JList _ => inl (AttributeError "'list' object has no attribute 'get'")
  end.

(** The text an f-string puts for the value of [error_body.get('message')]. *)
Definition format_value (w : World) (v : option json) : string :=
  match v with
  | None => "None"
  | Some JNull => "None"
  | Some (JStr s) => s
  | Some other => py_repr w other
  end.

Definition error_result (msg : string) : QueryResult :=
  {| status := "error"; data := JStr msg |}.

(** The three [except] clauses, tried in the order of the source. *)
Definition handlers (w : World) (e : exn) : Py.M QueryResult :=
  match e with
  | ApiException body =>
      error_body <- Py.lift (loads_body w body) ;;
      message <- Py.lift (body_get error_body "message") ;;
      Py.ret (error_result ("Kubernetes API Error: " +:+ format_value w message))
  | AttributeError _ =>
      m <- get_method_name ;;
      Py.ret (error_result
        ("Internal Tool Error: Could not find method '" +:+ m +:+ "'. Check the API map."))
  | other =>
      Py.ret (error_result ("An unexpected error occurred: " +:+ exn_str other))
  end.

(** The body of the [try] block. *)
Definition try_block (w : World) (resource_type namespace : string) (name : option string)
    : Py.M QueryResult :=
  emit (EvLoadKubeConfig "tmp/uploads/config") ;;;
  Py.lift (load_kube_config w "tmp/uploads/config") ;;;
  resource_map <- get_api_map_from_csv w "tools/resources.csv" ;;
  let resource_type_lower := lower resource_type in
  match resource_map !! resource_type_lower with
  | None =>
      Py.ret (error_result ("Unsupported resource type: '" +:+ resource_type +:+ "'."))
  | Some (client, method_suffix) =>
      let action := if truthy name then "read" else "list" in
      set_method_name (action +:+ "_namespaced_" +:+ method_suffix) ;;;
      m <- get_method_name ;;
      let kwargs :=
        [("namespace", namespace)] ++
        (if truthy name then [("name", default "" name)] else []) in
      func <- getattr w client m ;;
      result_obj <- invoke client m func kwargs ;;
      d <- Py.lift (to_dict result_obj) ;;
      Py.ret {| status := "success"; data := d |}
  end.

(** [execute_k8s_query(resource_type, namespace, name)]. The parameters
    [cluster_context] and [demo_mode] are not used by the body
    ([if demo_mode: pass]). The result is the final frame, whose [events]
    are the external effects of the call, and either the exception that left
    the function or the dictionary it returned. *)
Definition execute_k8s_query (w : World) (resource_type namespace : string)
    (name : option string) : frame * (exn + QueryResult) :=
  (set_method_name "" ;;;
   Py.try_except (try_block w resource_type namespace name) (handlers w))
  {| events := []; method_name := "" |}.

End Kubconnect.

(** ** llm_agent.py *)

Module LlmAgent.

Definition nl : string := String (ascii_of_nat 10) EmptyString.

(** One entry of [response_message["tool_calls"]]: [tool_call["id"]],
    [tool_call["function"]["name"]], [tool_call["function"]["arguments"]]. *)
Record tool_call : Type := {
  tc_id : string;
  tc_name : string;
  tc_arguments : string
}.

(** [llm_response['choices'][0]['message']]: the text of the model, which
    is [None] when it only requests tools, and its tool-call requests
    ([None] and the empty list are both the empty list here). *)
Record response : Type := {
  content : option string;
  tool_calls : list tool_call
}.

(** The dictionaries of the list [messages], by role. *)
Inductive message : Type :=
| System (text : string)
| User (text : string)
| Assistant (r : response)
| Tool (tool_call_id name text : string).

Definition SYSTEM_PROMPT : string :=
"
You are a helpful and highly intelligent DevOps assistant. Your role is to answer questions about a Kubernetes cluster.
When a user asks a question, you must use the provided 'execute_kubernetes_query' tool to get the necessary information.
Do not make up answers. If the tool provides an error or empty result, state that you couldn't find the information.
After the tool is called and you get the result, formulate a clear, human-readable answer for the user.
".

Definition TOOL_SERVER_URL : string := "http://localhost:8000/execute_k8s".

(** The environment and the services the function calls:
    [os.getenv("CEREBRAS_API_KEY", "YOUR_API_KEY_HERE")], [os.getenv("TOOL_API_KEY")],
    [client.chat.completions.create(...)] followed by the extraction of the
    message, [json.loads], [requests.post] followed by [raise_for_status()]
    and [.json()], [json.dumps], and the text an f-string gives a value. *)
Record World : Type := {
  CEREBRAS_API_KEY : string;
  TOOL_API_KEY : option string;
  chat_completions_create : list message -> exn + response;
  json_loads : string -> exn + json;
  tool_server_post : string -> json -> exn + json;
  json_dumps : json -> string;
  py_repr : json -> string
}.

Inductive event : Type :=
| EvPrint (text : string)
| EvModelCall (messages : list message)
| EvToolPost (url : string) (tool_args : json).

(** The list [messages], which the function mutates, and the trace. *)
Record frame : Type := {
  events : list event;
  messages : list message
}.

Definition emit (ev : event) : Py.M unit :=
  Py.modify (fun f => {| events := events f ++ [ev]; messages := messages f |}).

Definition print (text : string) : Py.M unit := emit (EvPrint text).

Definition set_messages (l : list message) : Py.M unit :=
  Py.modify (fun f => {| events := events f; messages := l |}).

Definition messages_append (m : message) : Py.M unit :=
  Py.modify (fun f => {| events := events f; messages := messages f ++ [m] |}).

Definition get_messages : Py.M (list message) :=
  f <- Py.get ;; Py.ret (messages f).

(** A call of the model with the current [messages]. *)
Definition create (w : World) : Py.M response :=
  l <- get_messages ;;
  emit (EvModelCall l) ;;;
  Py.lift (chat_completions_create w l).

Definition post (w : World) (tool_args : json) : Py.M json :=
  emit (EvToolPost TOOL_SERVER_URL tool_args) ;;;
  Py.lift (tool_server_post w TOOL_SERVER_URL tool_args).

(** The text an f-string gives [final_message], which may be [None]. *)
Definition format_content (c : option string) : string := default "None" c.

(** [except requests.exceptions.RequestException as e: print(...); return]:
    the handler ends the function ([None] for the rest of it); any other
    exception is not caught. *)
Definition on_request_exception {A} (label : string) (e : exn) : Py.M (option A) :=
  match e with
  | RequestException _ => print (label +:+ exn_str e) ;;; Py.ret None
  | other => Py.raise other
  end.

(** The first [try] block. *)
Definition first_call (w : World) : Py.M (option response) :=
  Py.try_except
    (response_message <- create w ;;
     messages_append (Assistant response_message) ;;;
     Py.ret (Some response_message))
    (on_request_exception "🔥 Error calling Cerebras API: ").

(** The [try] block around the tool server. *)
Definition call_tool (w : World) (tool_args : json) : Py.M json :=
  Py.try_except
    (tool_result <- post w tool_args ;;
     print ("✅ Tool executed successfully." +:+ nl) ;;;
     Py.ret tool_result)
    (fun e => match e with
              | RequestException _ =>
                  print ("🔥 Error calling tool server: " +:+ exn_str e) ;;;
                  Py.ret (JDict [("error", JStr (exn_str e))])
              | other => Py.raise other
              end).

(** The second [try] block. *)
Definition second_call (w : World) : Py.M (option unit) :=
  Py.try_except
    (final <- create w ;;
     print (nl +:+ "💬 DevOps Assistant:" +:+ nl +:+ format_content (content final)) ;;;
     Py.ret (Some tt))
    (on_request_exception "🔥 Error on second call to Cerebras API: ").

Definition key_set (k : string) : bool :=
  match k with EmptyString => false | _ => true end.

(** [run_agent_query(user_prompt)]. The function has no return value; the
    result is the final frame and either the exception that left the function
    or [tt] for [None]. *)
Definition run_agent_query (w : World) (user_prompt : string) : frame * (exn + unit) :=
  (if negb (key_set (CEREBRAS_API_KEY w)) || negb (truthy (TOOL_API_KEY w)) then
     print "Error: Ensure CEREBRAS_API_KEY and TOOL_API_KEY environment variables are set."
   else
     print ("👤 User: " +:+ user_prompt +:+ nl) ;;;
     set_messages [System SYSTEM_PROMPT; User user_prompt] ;;;
     first <- first_call w ;;
     match first with
     | None => Py.ret tt
     | Some response_message =>
         match tool_calls response_message with
         | tool_call :: _ =>
             let function_name := tc_name tool_call in
             if String.eqb function_name "execute_kubernetes_query" then
               print "🤖 LLM wants to call the Kubernetes tool..." ;;;
               tool_args <- Py.lift (json_loads w (tc_arguments tool_call)) ;;
               print ("   Calling function with args: " +:+ py_repr w tool_args) ;;;
               tool_result <- call_tool w tool_args ;;
               messages_append
                 (Tool (tc_id tool_call) function_name (json_dumps w tool_result)) ;;;
               print "🗣️ Sending tool result back to LLM for final response..." ;;;
               second_call w ;;;
               Py.ret tt
             else Py.ret tt
         | [] =>
             let final_message := content response_message in
             print (nl +:+ "💬 DevOps Assistant:" +:+ nl +:+ format_content final_message)
         end
     end)
  {| events := []; messages := [] |}.

End LlmAgent.

(** ** llm_agent_langchain.py *)

Module LlmAgentLangchain.

(** The two message classes the session history holds. *)
Inductive lc_message : Type :=
| HumanMessage (text : string)
| AIMessage (text : string).

(** The keyword arguments [__init__] gives to [AgentExecutor]. *)
Record AgentExecutor : Type := {
  verbose : bool;
  max_iterations : nat;
  handle_parsing_errors : bool
}.

(** The fields of [self]. *)
Record KubernetesSREAgent : Type := {
  agent_executor : AgentExecutor;
  chat_history : list lc_message
}.

(** [self.agent_executor.invoke({"input": ..., "chat_history": ...})]: the
    executor is library code; it either raises or returns the response
    dictionary. *)
Record World : Type := {
  invoke : AgentExecutor -> string -> list lc_message -> exn + gmap string string
}.

(** The state [__init__] leaves: the executor as configured in the source and
    an empty history. *)
Definition __init__ : KubernetesSREAgent :=
  {| agent_executor :=
       {| verbose := true; max_iterations := 15; handle_parsing_errors := true |};
     chat_history := [] |}.

Definition history_append (m : lc_message) : Py.M unit :=
  Py.modify (fun self =>
    {| agent_executor := agent_executor self; chat_history := chat_history self ++ [m] |}).

(** [response["output"]]. *)
Definition response_get (resp : gmap string string) (key : string) : exn + string :=
  match resp !! key with
  | Some v => inr v
  | None => inl (KeyError key)
  end.

(** [KubernetesSREAgent.chat(self, user_question)]; the state is [self].
    The [print] calls, which only write to the console, are left out. *)
Definition chat (w : World) (user_question : string) : Py.M string :=
  self <- Py.get ;;
  resp <- Py.lift (invoke w (agent_executor self) user_question (chat_history self)) ;;
  history_append (HumanMessage user_question) ;;;
  output <- Py.lift (response_get resp "output") ;;
  history_append (AIMessage output) ;;;
  Py.lift (response_get resp "output").

(** [KubernetesSREAgent.start_new_session(self)]: [self.chat_history = []]. *)
Definition start_new_session : Py.M unit :=
  Py.modify (fun self =>
    {| agent_executor := agent_executor self; chat_history := [] |}).

End LlmAgentLangchain.

(** ** The iteration loop behind the executor *)

Module AgentLoop.
Import LlmAgent.

(** The model and the tool as the loop sees them: a model call either fails
    (transport) or gives a response; a dispatch always gives the text of a
    tool message, errors included. *)
Record Collaborators : Type := {
  model : list message -> exn + response;
  dispatch : tool_call -> string
}.

(** What a turn leaves behind: the history, the number of model calls and
    the calls dispatched, in order. *)
Record loop_state : Type := {
  history : list message;
  model_calls : nat;
  dispatched : list tool_call
}.

Definition tool_message (c : Collaborators) (tc : tool_call) : message :=
  Tool (tc_id tc) (tc_name tc) (dispatch c tc).

(** Modelled from the spec: the iteration loop that [AgentExecutor.invoke]
    runs. The loop is code of the langchain library; the source only
    configures its budget ([max_iterations=15]). Following section 4.2 of the
    specification, each iteration calls the model with the full history; a
    response without tool calls is the final answer, appended as an assistant
    message; a response with tool calls is appended, each call is dispatched
    and its result appended as a tool message tagged with the call's
    identifier; when the budget is spent no further model call is issued and
    the text of the last response is surfaced. A failed model call ends the
    turn with the history as it is. *)
Fixpoint iterate (c : Collaborators) (budget : nat) (last : option string)
    (s : loop_state) : loop_state * (exn + option string) :=
  match budget with
  | O => (s, inr last)
  | S budget' =>
      let called :=
        {| history := history s; model_calls := S (model_calls s);
           dispatched := dispatched s |} in
      match model c (history s) with
      | inl e => (called, inl e)
      | inr r =>
          match tool_calls r with
          | [] =>
              ({| history := history s ++ [Assistant r];
                  model_calls := model_calls called;
                  dispatched := dispatched s |}, inr (content r))
          | calls =>
              iterate c budget' (content r)
                {| history := history s ++ [Assistant r] ++ map (tool_message c) calls;
                   model_calls := model_calls called;
                   dispatched := dispatched s ++ calls |}
          end
      end
  end.

(** Modelled from the spec: one turn of the agent loop, which appends the
    user question to the session's history and iterates within the budget
    the executor was configured with. *)
Definition turn (cfg : LlmAgentLangchain.AgentExecutor) (c : Collaborators)
    (session : list message) (question : string) : loop_state * (exn + option string) :=
  iterate c (LlmAgentLangchain.max_iterations cfg) None
    {| history := session ++ [User question]; model_calls := 0; dispatched := [] |}.

End AgentLoop.

(** ** Observations on a run of the dispatcher *)

Module KubconnectSpec.
Import Kubconnect.

(** The empty frame a call starts from. *)
Definition frame0 : frame := {| events := []; method_name := "" |}.

(** The mapping a call works with: what [get_api_map_from_csv] returns once
    [config.load_kube_config] has returned, or the exception that prevents
    it. *)
Definition resource_map_of (w : World) : exn + gmap string (api_client * string) :=
  match load_kube_config w "tmp/uploads/config" with
  | inl e => inl e
  | inr _ => snd (get_api_map_from_csv w "tools/resources.csv" frame0)
  end.

Definition is_api_event (ev : event) : bool :=
  match ev with
  | EvGetattr _ _ | EvInvoke _ _ _ => true
  | _ => false
  end.

(** The part of a trace that touches the remote API. *)
Definition api_events (evs : list event) : list event := List.filter is_api_event evs.

Definition is_mapping_read (ev : event) : bool :=
  match ev with
  | EvReadCsv _ => true
  | _ => false
  end.

(** How many times a trace opens the mapping source. *)
Definition mapping_reads (evs : list event) : nat := length (List.filter is_mapping_read evs).

Definition is_query_operation (m : string) : bool :=
  String.prefix "read_namespaced_" m || String.prefix "list_namespaced_" m.

Definition mutating_verbs : list string := ["create"; "update"; "delete"; "patch"; "replace"].

Definition is_mutating (m : string) : bool :=
  existsb (fun verb => String.prefix verb m) mutating_verbs.

(** An event is read-only when it is not an API event, or when its operation
    name starts with one of the two query prefixes and with no mutating verb. *)
Definition read_only_event (ev : event) : bool :=
  match ev with
  | EvGetattr _ m | EvInvoke _ m _ => is_query_operation m && negb (is_mutating m)
  | _ => true
  end.

(** The operation name and the keyword arguments the [try] block composes
    for a mapped suffix. *)
Definition query_method (name : option string) (suffix : string) : string :=
  (if truthy name then "read" else "list") +:+ "_namespaced_" +:+ suffix.

Definition query_kwargs (ns : string) (name : option string) : list (string * string) :=
  [("namespace", ns)] ++ (if truthy name then [("name", default "" name)] else []).

(** The API events of a dispatch that resolved to [api] and [m]: the lookup
    of the attribute and, when the client has it, the call. *)
Definition dispatch_events (w : World) (api : api_client) (m : string)
    (kwargs : list (string * string)) : list event :=
  EvGetattr api m ::
  match api_getattr w api m with
  | Some _ => [EvInvoke api m kwargs]
  | None => []
  end.

(** A process that serves queries one after the other; each query meets the
    outside as it is at that time. *)
Record query : Type := {
  q_resource_type : string;
  q_namespace : string;
  q_name : option string
}.

Definition serve (steps : list (World * query)) : list (frame * (exn + QueryResult)) :=
  map (fun step =>
         execute_k8s_query (fst step) (q_resource_type (snd step))
           (q_namespace (snd step)) (q_name (snd step)))
      steps.

Definition process_events (steps : list (World * query)) : list event :=
  concat (map (fun r => events (fst r)) (serve steps)).

Definition config_loads (step : World * query) : bool :=
  match load_kube_config (fst step) "tmp/uploads/config" with
  | inr _ => true
  | inl _ => false
  end.

(** *** Sample clusters *)

Definition csv_row (resource api_version method_suffix : string) : gmap string string :=
  {[ "resource" := resource; "api_version" := api_version; "method_suffix" := method_suffix ]}.

Definition resources_csv : list (gmap string string) :=
  [ csv_row "pod" "v1" "pod";
    csv_row "service" "v1" "service";
    csv_row "deployment" "apps_v1" "deployment" ].

(** The mapping [get_api_map_from_csv] builds from [resources_csv]. *)
Definition demo_map : gmap string (api_client * string) :=
  <["deployment" := (AppsV1, "deployment")]>
    (<["service" := (V1, "service")]> (<["pod" := (V1, "pod")]> ∅)).

Definition q_pods : query :=
  {| q_resource_type := "pod"; q_namespace := "default"; q_name := None |}.

Definition pod_list : json := JDict [("kind", JStr "PodList"); ("items", JList [])].

Definition no_json : string -> exn + json :=
  fun _ => inl (JSONDecodeError "Expecting value: line 1 column 1 (char 0)").

(** A cluster that answers the pod queries. *)
Definition demo_cluster : World := {|
  load_kube_config := fun _ => inr tt;
  open_csv := fun _ => inr resources_csv;
  api_getattr := fun api m =>
    match api with
    | V1 =>
        if String.eqb m "list_namespaced_pod" || String.eqb m "read_namespaced_pod"
        then Some (fun _ => inr {| to_dict := inr pod_list |})
        else None
    | AppsV1 => None
    end;
  json_loads := no_json;
  py_repr := fun _ => "{}"
|}.

(** The same process after the pod row was taken out of the CSV file. *)
Definition demo_cluster_edited : World := {|
  load_kube_config := load_kube_config demo_cluster;
  open_csv := fun _ => inr [csv_row "service" "v1" "service"];
  api_getattr := api_getattr demo_cluster;
  json_loads := json_loads demo_cluster;
  py_repr := py_repr demo_cluster
|}.

(** A cluster whose API calls fail with an [ApiException] that carries the
    given body. *)
Definition failing_cluster (body : option string) : World := {|
  load_kube_config := fun _ => inr tt;
  open_csv := fun _ => inr resources_csv;
  api_getattr := fun _ _ => Some (fun _ => inl (ApiException body));
  json_loads := no_json;
  py_repr := fun _ => "{}"
|}.

End KubconnectSpec.

(** ** Observations on a turn of the agent *)

Module LlmAgentSpec.
Import LlmAgent.

(** The histories the model was called with, in order. *)
Fixpoint model_inputs (evs : list event) : list (list message) :=
  match evs with
  | [] => []
  | EvModelCall l :: rest => l :: model_inputs rest
  | _ :: rest => model_inputs rest
  end.

(** The argument payloads posted to the tool server, in order. *)
Fixpoint tool_posts (evs : list event) : list json :=
  match evs with
  | [] => []
  | EvToolPost _ a :: rest => a :: tool_posts rest
  | _ :: rest => tool_posts rest
  end.

(** The lines printed, in order. *)
Fixpoint printed (evs : list event) : list string :=
  match evs with
  | [] => []
  | EvPrint t :: rest => t :: printed rest
  | _ :: rest => printed rest
  end.

Definition has_call_id (id : string) (m : message) : bool :=
  match m with
  | Assistant r => existsb (fun tc => String.eqb (tc_id tc) id) (tool_calls r)
  | _ => false
  end.

(** Every tool message directly follows an assistant message that emitted
    its call identifier; [prev] is the message before the list. *)
Fixpoint tool_messages_matched (prev : option message) (l : list message) : bool :=
  match l with
  | [] => true
  | m :: rest =>
      match m with
      | Tool id _ _ =>
          match prev with
          | Some p => has_call_id id p
          | None => false
          end
      | _ => true
      end && tool_messages_matched (Some m) rest
  end.

Definition is_tool_message (m : message) : bool :=
  match m with
  | Tool _ _ _ => true
  | _ => false
  end.

(** The role of a message, as the dictionaries of the source spell it. *)
Definition role (m : message) : string :=
  match m with
  | System _ => "system"
  | User _ => "user"
  | Assistant _ => "assistant"
  | Tool _ _ _ => "tool"
  end.

(** The text of the final-answer line. *)
Definition final_line (text : option string) : string :=
  nl +:+ "💬 DevOps Assistant:" +:+ nl +:+ format_content text.

(** The list [messages] as the function sets it up. *)
Definition seed (user_prompt : string) : list message :=
  [System SYSTEM_PROMPT; User user_prompt].

(** What [call_tool] gives for the tool server's reaction: its answer, the
    error dictionary for a [RequestException], nothing when another exception
    passes through. *)
Definition tool_outcome (w : World) (tool_args : json) : option json :=
  match tool_server_post w TOOL_SERVER_URL tool_args with
  | inr tool_result => Some tool_result
  | inl (RequestException msg) => Some (JDict [("error", JStr msg)])
  | inl _ => None
  end.

(** The shapes the frame of a turn can have: the keys are missing; the
    first model call failed; the response was appended and nothing dispatched;
    the first requested call was posted and the post raised; the first
    requested call was posted, its tool message appended and the model called
    again. *)
Inductive turn_shape (w : World) (p : string) (f : frame) : Prop :=
| ShapeNoKeys :
    messages f = [] -> model_inputs (events f) = [] -> tool_posts (events f) = [] ->
    turn_shape w p f
| ShapeFirstFailed :
    messages f = seed p -> model_inputs (events f) = [seed p] ->
    tool_posts (events f) = [] ->
    turn_shape w p f
| ShapeNoDispatch r :
    chat_completions_create w (seed p) = inr r ->
    messages f = seed p ++ [Assistant r] -> model_inputs (events f) = [seed p] ->
    tool_posts (events f) = [] ->
    turn_shape w p f
| ShapePostRaised r tc rest a :
    chat_completions_create w (seed p) = inr r ->
    tool_calls r = tc :: rest ->
    messages f = seed p ++ [Assistant r] -> model_inputs (events f) = [seed p] ->
    tool_posts (events f) = [a] ->
    turn_shape w p f
| ShapeDispatched r tc rest a x :
    chat_completions_create w (seed p) = inr r ->
    tool_calls r = tc :: rest ->
    messages f = seed p ++ [Assistant r; Tool (tc_id tc) (tc_name tc) x] ->
    model_inputs (events f) = [seed p; messages f] ->
    tool_posts (events f) = [a] ->
    turn_shape w p f.

(** *** Sample models *)

Definition dq : string := String (ascii_of_nat 34) EmptyString.

Definition list_pods_call : tool_call :=
  {| tc_id := "call_1"; tc_name := "execute_kubernetes_query";
     tc_arguments := "{" +:+ dq +:+ "resource_type" +:+ dq +:+ ": " +:+ dq +:+ "pod" +:+ dq +:+ "}" |}.

Definition list_services_call : tool_call :=
  {| tc_id := "call_2"; tc_name := "execute_kubernetes_query";
     tc_arguments := "{" +:+ dq +:+ "resource_type" +:+ dq +:+ ": " +:+ dq +:+ "service" +:+ dq +:+ "}" |}.

Definition pod_args : json := JDict [("resource_type", JStr "pod")].

Definition tool_answer : json := JDict [("status", JStr "success"); ("data", JDict [])].

Definition asks_for (calls : list tool_call) : response :=
  {| content := None; tool_calls := calls |}.

Definition says (text : string) : response :=
  {| content := Some text; tool_calls := [] |}.

(** A world around a scripted model: keys set, arguments that parse, a tool
    server that answers. *)
Definition world_of (script : list message -> exn + response) : World := {|
  CEREBRAS_API_KEY := "YOUR_API_KEY_HERE";
  TOOL_API_KEY := Some "secret";
  chat_completions_create := script;
  json_loads := fun _ => inr pod_args;
  tool_server_post := fun _ _ => inr tool_answer;
  json_dumps := fun _ => "{" +:+ dq +:+ "status" +:+ dq +:+ ": " +:+ dq +:+ "success" +:+ dq +:+ "}";
  py_repr := fun _ => "{'resource_type': 'pod'}"
|}.

(** The model of the round trip: one tool call first, plain text once the
    history ends with a tool message. *)
Definition round_trip_model (l : list message) : exn + response :=
  match last l with
  | Some (Tool _ _ _) => inr (says "There are no pods in the default namespace.")
  | _ => inr (asks_for [list_pods_call])
  end.

(** A model that requests two tool calls in its first response. *)
Definition two_calls_model (l : list message) : exn + response :=
  match last l with
  | Some (Tool _ _ _) => inr (says "Done.")
  | _ => inr (asks_for [list_pods_call; list_services_call])
  end.

(** A model that requests a tool call on every response. *)
Definition insistent_model (l : list message) : exn + response :=
  inr (asks_for [list_pods_call]).

End LlmAgentSpec.

(** ** Observations on the iteration loop *)

Module AgentLoopSpec.
Import LlmAgent AgentLoop.

(** A model that requests a tool call on every response and never gives a
    final answer. *)
Definition insistent (c : Collaborators) : Prop :=
  forall l, exists r, model c l = inr r /\ tool_calls r <> [].

Definition insistent_collaborators : Collaborators :=
  {| model := LlmAgentSpec.insistent_model; dispatch := fun _ => "{}" |}.

End AgentLoopSpec.

(** ** Sample executors for the stateful agent *)

Module LlmAgentLangchainSpec.
Import LlmAgentLangchain.

(** An executor whose model cannot be reached. *)
Definition executor_down : World :=
  {| invoke := fun _ _ _ => inl (PyException "Connection error.") |}.

(** An executor that answers every question with the same text. *)
Definition executor_up : World :=
  {| invoke := fun _ question _ =>
       inr ({[ "input" := question; "output" := "All pods are running." ]} : gmap string string) |}.

Definition one_turn : list lc_message :=
  [HumanMessage "Check the pods."; AIMessage "All pods are running."].

Definition agent_with (l : list lc_message) : KubernetesSREAgent :=
  {| agent_executor := agent_executor __init__; chat_history := l |}.

End LlmAgentLangchainSpec.

(** ** tools/kubconnect.py: the demo responses *)

Module KubconnectDemo.
Import Kubconnect.

(** [name and name == "non-existent-resource"]. *)
Definition is_non_existent (name : option string) : bool :=
  truthy name && String.eqb (default "" name) "non-existent-resource".

(** [_handle_demo_response(resource_type, namespace, name)]: the mock
    envelopes, branch by branch. *)
Definition _handle_demo_response (resource_type namespace : string) (name : option string)
    : QueryResult :=
  let resource_type_lower := lower resource_type in
  if is_non_existent name then
    {| status := "error";
       data := JStr "Kubernetes API Error: Status 404. Reason: Resource 'non-existent-resource' of type 'pod' not found in namespace 'default'." |}
  else if String.eqb resource_type_lower "pod" && truthy name then
    {| status := "success";
       data := JDict
         [("apiVersion", JStr "v1");
          ("kind", JStr "Pod");
          ("metadata", JDict [("name", JStr (default "" name)); ("namespace", JStr namespace);
                              ("labels", JDict [("app", JStr "demo-app")])]);
          ("spec", JDict [("containers",
             JList [JDict [("name", JStr "main"); ("image", JStr "nginx:1.21.6");
                           ("ports", JList [JDict [("containerPort", JNum 80)]])]])]);
          ("status", JDict [("phase", JStr "Running"); ("hostIP", JStr "192.168.1.10");
                            ("containerStatuses",
                             JList [JDict [("ready", JBool true); ("restartCount", JNum 0)]])])] |}
  else if String.eqb resource_type_lower "pod" then
    {| status := "success";
       data := JDict
         [("apiVersion", JStr "v1");
          ("kind", JStr "PodList");
          ("items", JList
             [JDict [("metadata", JDict [("name", JStr "app-1-xyz");
                                          ("labels", JDict [("app", JStr "demo-app")])]);
                     ("status", JDict [("phase", JStr "Running")])];
              JDict [("metadata", JDict [("name", JStr "app-2-abc");
                                          ("labels", JDict [("app", JStr "demo-app")])]);
                     ("status", JDict [("phase", JStr "Running")])];
              JDict [("metadata", JDict [("name", JStr "db-a-123");
                                          ("labels", JDict [("app", JStr "database")])]);
                     ("status", JDict [("phase", JStr "Running")])]])] |}
  else if String.eqb resource_type_lower "service" && truthy name then
    {| status := "success";
       data := JDict
         [("apiVersion", JStr "v1");
          ("kind", JStr "Service");
          ("metadata", JDict [("name", JStr (default "" name)); ("namespace", JStr namespace)]);
          ("spec", JDict [("type", JStr "LoadBalancer");
                          ("ports", JList [JDict [("port", JNum 80); ("targetPort", JNum 8080)]])]);
          ("status", JDict [("loadBalancer",
             JDict [("ingress", JList [JDict [("ip", JStr "34.100.200.50")]])])])] |}
  else if String.eqb resource_type_lower "deployment" then
    {| status := "success";
       data := JDict
         [("apiVersion", JStr "apps/v1");
          ("kind", JStr "DeploymentList");
          ("items", JList
             [JDict [("metadata", JDict [("name", JStr "frontend")]);
                     ("status", JDict [("replicas", JNum 3); ("readyReplicas", JNum 3);
                                       ("unavailableReplicas", JNum 0)])];
              JDict [("metadata", JDict [("name", JStr "backend")]);
                     ("status", JDict [("replicas", JNum 2); ("readyReplicas", JNum 1);
                                       ("unavailableReplicas", JNum 1)])]])] |}
  else
    {| status := "error";
       data := JStr ("Demo mode does not have mock data for '" +:+ resource_type +:+
                     "' or the combination requested.") |}.

End KubconnectDemo.

(** ** llm_agent_langchain.py: the tool *)

Module LlmAgentLangchainTool.

(** [get_kubernetes_resource(resource_type, namespace="default", name=None)]:
    an omitted [namespace] is [None] here and takes the default of the
    signature; an omitted [name] is [None] as in the source. *)
Definition get_kubernetes_resource (w : Kubconnect.World) (resource_type : string)
    (namespace : option string) (name : option string)
    : Kubconnect.frame * (exn + Kubconnect.QueryResult) :=
  Kubconnect.execute_k8s_query w resource_type (default "default" namespace) name.

End LlmAgentLangchainTool.

(** ** main.py *)

Module Main.
Import LlmAgentLangchain.

Definition UPLOAD_DIR : string := "uploads".
Definition CONFIG_FILENAME : string := "config".

(** [os.path.join] of two relative POSIX components. *)
Definition path_join (a b : string) : string := a +:+ "/" +:+ b.

Definition CONFIG_FILE_PATH : string := path_join UPLOAD_DIR CONFIG_FILENAME.

(** The uploaded file as the endpoint uses it: its name and content type,
    which may be [None], the bytes that [file.seek(0)] and
    [shutil.copyfileobj] get across, and the exception that interrupts the
    copy, if any. *)
Record UploadFile : Type := {
  filename : option string;
  content_type : option string;
  copied : string;
  copy_error : option exn
}.

(** A response: [JSONResponse(status_code=..., content=...)]; a returned
    dictionary is served with status 200. *)
Record JSONResponse : Type := {
  status_code : nat;
  content : json
}.

Definition ok (d : json) : JSONResponse := {| status_code := 200; content := d |}.

(** The process: the files under the working directory (path to content;
    the directory [uploads] exists since import), the dictionary
    [session_data] and the one agent [sre_agent] of the module. *)
Record server : Type := {
  files : gmap string string;
  session_data : gmap string (list (string * json));
  sre_agent : KubernetesSREAgent
}.

(** The executor behind the agent and the texts Python gives values. *)
Record World : Type := {
  executor : LlmAgentLangchain.World;
  py_repr : json -> string;
  api_exception_str : option string -> string
}.

(** [str(e)] for any exception. *)
Definition str_exn (w : World) (e : exn) : string :=
  match e with
  | ApiException body => api_exception_str w body
  | other => exn_str other
  end.

(** The text an f-string gives a value of a dictionary. *)
Definition format_json (w : World) (v : json) : string :=
  match v with
  | JStr s => s
  | JNull => "None"
  | other => py_repr w other
  end.

Definition opt_json (o : option string) : json :=
  match o with
  | Some s => JStr s
  | None => JNull
  end.

Definition set_files (f : gmap string string -> gmap string string) : Py.M unit :=
  Py.modify (fun s =>
    {| files := f (files s); session_data := session_data s; sre_agent := sre_agent s |}).

Definition set_session_data
    (f : gmap string (list (string * json)) -> gmap string (list (string * json)))
    : Py.M unit :=
  Py.modify (fun s =>
    {| files := files s; session_data := f (session_data s); sre_agent := sre_agent s |}).

(** A method of [sre_agent] run on the agent of the process. *)
Definition on_agent {A} (c : KubernetesSREAgent -> KubernetesSREAgent * (exn + A))
    : Py.M A :=
  fun s =>
    let r := c (sre_agent s) in
    ({| files := files s; session_data := session_data s; sre_agent := fst r |}, snd r).

(** [os.path.exists(path)]. *)
Definition path_exists (path : string) : Py.M bool :=
  s <- Py.get ;;
  Py.ret (match files s !! path with Some _ => true | None => false end).

(** [os.path.getsize(path)]. *)
Definition getsize (path : string) : Py.M nat :=
  s <- Py.get ;;
  match files s !! path with
  | Some bytes => Py.ret (String.length bytes)
  | None => Py.raise (PyException ("[Errno 2] No such file or directory: '" +:+ path +:+ "'"))
  end.

(** [os.remove(path)]. *)
Definition remove (path : string) : Py.M unit :=
  s <- Py.get ;;
  match files s !! path with
  | Some _ => set_files (delete path)
  | None => Py.raise (PyException ("[Errno 2] No such file or directory: '" +:+ path +:+ "'"))
  end.

(** The body of [with open(file_path, "wb") as buffer]: opening truncates
    the file, the copy writes what it gets across and may then raise. *)
Definition write_upload (file_path : string) (file : UploadFile) : Py.M unit :=
  set_files (<[file_path := ""]>) ;;;
  set_files (<[file_path := copied file]>) ;;;
  match copy_error file with
  | Some e => Py.raise e
  | None => Py.ret tt
  end.

Definition error_response (w : World) (label : string) (e : exn)
    : Py.M (St:=server) JSONResponse :=
  Py.ret {| status_code := 500;
            content := JDict [("detail", JStr (label +:+ str_exn w e))] |}.

(** [upload_file(file, session_id)]. *)
Definition upload_file (w : World) (file : UploadFile) (session_id : string)
    : Py.M JSONResponse :=
  Py.try_except
    (let file_path := path_join UPLOAD_DIR CONFIG_FILENAME in
     write_upload file_path file ;;;
     s <- Py.get ;;
     (match session_data s !! session_id with
      | None => set_session_data (<[session_id := []]>)
      | Some _ => Py.ret tt
      end) ;;;
     size <- getsize file_path ;;
     set_session_data (<[session_id :=
       [("filename", opt_json (filename file));
        ("filepath", JStr file_path);
        ("content_type", opt_json (content_type file));
        ("size", JNum (Z.of_nat size))]]>) ;;;
     Py.ret (ok (JDict
       [("message", JStr ("File uploaded and saved as '" +:+ CONFIG_FILENAME +:+
                          "' successfully."));
        ("saved_as", JStr CONFIG_FILENAME);
        ("original_filename", opt_json (filename file));
        ("filepath", JStr file_path)])))
    (error_response w "Error uploading file: ").

(** [session_data.get(session_id, {}).get("filename", CONFIG_FILENAME)]. *)
Definition original_filename_of (s : server) (session_id : string) : json :=
  default (JStr CONFIG_FILENAME)
    (Kubconnect.assoc_get (default [] (session_data s !! session_id)) "filename").

(** [process_query(request)], with [request.query] and
    [request.session_id]. *)
Definition process_query (w : World) (query session_id : string) : Py.M JSONResponse :=
  Py.try_except
    (let config_file_path := path_join UPLOAD_DIR CONFIG_FILENAME in
     present <- path_exists config_file_path ;;
     if negb present then
       Py.ret {| status_code := 400;
                 content := JDict [("detail",
                   JStr "Required file 'config' not found in uploads folder.")] |}
     else
       response <- on_agent (chat (executor w) query) ;;
       s <- Py.get ;;
       let original_filename := original_filename_of s session_id in
       Py.ret (ok (JDict
         [("response", JStr response);
          ("query", JStr query);
          ("file_analyzed", JStr (CONFIG_FILENAME +:+ " (Original: " +:+
                                  format_json w original_filename +:+ ")"))])))
    (error_response w "Error processing query: ").

(** [clear_history(request)], with [request.session_id]. *)
Definition clear_history (w : World) (session_id : string) : Py.M JSONResponse :=
  Py.try_except
    (on_agent start_new_session ;;;
     let config_file_path := path_join UPLOAD_DIR CONFIG_FILENAME in
     present <- path_exists config_file_path ;;
     (if present then remove config_file_path else Py.ret tt) ;;;
     s <- Py.get ;;
     (match session_data s !! session_id with
      | Some _ => set_session_data (delete session_id)
      | None => Py.ret tt
      end) ;;;
     Py.ret (ok (JDict
       [("message", JStr ("Upload history cleared successfully. '" +:+ CONFIG_FILENAME +:+
                          "' deleted."))])))
    (error_response w "Error clearing history: ").

(** [cleanup_all_sessions()]. *)
Definition cleanup_all_sessions (w : World) : Py.M JSONResponse :=
  Py.try_except
    (on_agent start_new_session ;;;
     let config_file_path := path_join UPLOAD_DIR CONFIG_FILENAME in
     present <- path_exists config_file_path ;;
     deleted_count <-
       (if present then remove config_file_path ;;; Py.ret 1%Z else Py.ret 0%Z) ;;
     set_session_data (fun _ => ∅) ;;;
     Py.ret (ok (JDict
       [("message", JStr ("All sessions cleaned up successfully. Removed " +:+
                          pretty deleted_count +:+ " file(s)."));
        ("deleted_count", JNum deleted_count)])))
    (error_response w "Error cleaning up all sessions: ").

(** [cleanup_on_shutdown()]: the removal is in a [try] of its own and the
    handler only prints. The [print] calls are left out. *)
Definition cleanup_on_shutdown : Py.M unit :=
  present <- path_exists CONFIG_FILE_PATH ;;
  if present then Py.try_except (remove CONFIG_FILE_PATH) (fun _ => Py.ret tt)
  else Py.ret tt.

End Main.

(** ** Observations on the added code *)

Module MoreSpec.
Import Kubconnect KubconnectSpec.

Definition is_invoke (ev : event) : bool :=
  match ev with
  | EvInvoke _ _ _ => true
  | _ => false
  end.

(** The calls made on an API client. *)
Definition invocations (evs : list event) : list event := List.filter is_invoke evs.

(** The value of the column [api_version] that selects a client. *)
Definition version_name (c : api_client) : string :=
  match c with
  | V1 => "v1"
  | AppsV1 => "apps_v1"
  end.

(** An exception that falls to the last [except] clause of the dispatcher. *)
Definition plain (e : exn) : bool :=
  match e with
  | ApiException _ | AttributeError _ => false
  | _ => true
  end.

(** A row with the three columns. *)
Definition full_row (row : gmap string string) (resource api_version suffix : string) : Prop :=
  row !! "resource" = Some resource /\
  row !! "api_version" = Some api_version /\
  row !! "method_suffix" = Some suffix.

Definition not_found_body : string :=
  "{" +:+ LlmAgentSpec.dq +:+ "message" +:+ LlmAgentSpec.dq +:+ ": " +:+
  LlmAgentSpec.dq +:+ "pods web-0 not found" +:+ LlmAgentSpec.dq +:+ "}".

(** A cluster whose API calls fail with a status body that parses. *)
Definition not_found_cluster : World := {|
  load_kube_config := fun _ => inr tt;
  open_csv := fun _ => inr resources_csv;
  api_getattr := fun _ _ => Some (fun _ => inl (ApiException (Some not_found_body)));
  json_loads := fun _ => inr (JDict [("kind", JStr "Status");
                                      ("message", JStr "pods web-0 not found")]);
  py_repr := fun _ => "{}"
|}.

(** A cluster without a kube-config file. *)
Definition unconfigured_cluster : World := {|
  load_kube_config := fun _ =>
    inl (PyException "Invalid kube-config file. No configuration found.");
  open_csv := fun _ => inr resources_csv;
  api_getattr := api_getattr demo_cluster;
  json_loads := no_json;
  py_repr := fun _ => "{}"
|}.

(** The cluster as a process with the given files sees it: the kube-config
    loads only from a path that exists. *)
Definition cluster_on (fs : gmap string string) : World := {|
  load_kube_config := fun path =>
    match fs !! path with
    | Some _ => inr tt
    | None => inl (PyException "Invalid kube-config file. No configuration found.")
    end;
  open_csv := open_csv demo_cluster;
  api_getattr := api_getattr demo_cluster;
  json_loads := no_json;
  py_repr := fun _ => "{}"
|}.

End MoreSpec.

Module LangchainMoreSpec.
Import LlmAgentLangchain.

(** The history is a sequence of completed turns: a question and its
    answer, again and again. *)
Fixpoint well_paired (l : list lc_message) : bool :=
  match l with
  | [] => true
  | HumanMessage _ :: AIMessage _ :: rest => well_paired rest
  | _ => false
  end.

(** What a user of the agent does with it. *)
Inductive op : Type :=
| Chat (user_question : string)
| Reset.

Definition run_op (w : World) (o : op) (self : KubernetesSREAgent) : KubernetesSREAgent :=
  match o with
  | Chat q => fst (chat w q self)
  | Reset => fst (start_new_session self)
  end.

Definition run_ops (w : World) (ops : list op) (self : KubernetesSREAgent)
    : KubernetesSREAgent :=
  fold_left (fun a o => run_op w o a) ops self.

(** Every response the executor returns has the key [output]. *)
Definition answers (w : World) : Prop :=
  forall ex q h resp, invoke w ex q h = inr resp -> is_Some (resp !! "output").

(** An executor whose response lacks the key [output]. *)
Definition executor_mute : World :=
  {| invoke := fun _ question _ => inr ({[ "input" := question ]} : gmap string string) |}.

End LangchainMoreSpec.

Module MainSpec.
Import LlmAgentLangchain Main.

Definition main_world (ex : LlmAgentLangchain.World) : World :=
  {| executor := ex; py_repr := fun _ => "0"; api_exception_str := fun _ => "(0)" |}.

(** The process right after import. *)
Definition fresh : server :=
  {| files := ∅; session_data := ∅; sre_agent := __init__ |}.

Definition kubeconfig : UploadFile :=
  {| filename := Some "admin.conf"; content_type := Some "application/octet-stream";
     copied := "apiVersion: v1"; copy_error := None |}.

Definition broken_upload : UploadFile :=
  {| filename := Some "admin.conf"; content_type := None;
     copied := "api"; copy_error := Some (PyException "connection reset") |}.

End MainSpec.

Module MoreSpec2.
Import Kubconnect.

(** An invocation whose first keyword argument is the namespace [ns]; the
    other events pass. *)
Definition invoked_in (ns : string) (ev : event) : bool :=
  match ev with
  | EvInvoke _ _ (("namespace", ns') :: _) => String.eqb ns' ns
  | EvInvoke _ _ _ => false
  | _ => true
  end.

End MoreSpec2.

Module LlmAgentMoreSpec.
Import LlmAgent LlmAgentSpec.

(** Both keys pass the guard at the head of [run_agent_query]. *)
Definition keys_set (w : World) : bool :=
  key_set (CEREBRAS_API_KEY w) && truthy (TOOL_API_KEY w).

Definition is_request_exception (e : exn) : bool :=
  match e with
  | RequestException _ => true
  | _ => false
  end.

Definition weather_call : tool_call :=
  {| tc_id := "call_7"; tc_name := "get_weather"; tc_arguments := "{}" |}.

(** The sample world with a tool server that cannot be reached. *)
Definition world_without_tool_server (script : list message -> exn + response) : World := {|
  CEREBRAS_API_KEY := CEREBRAS_API_KEY (world_of script);
  TOOL_API_KEY := TOOL_API_KEY (world_of script);
  chat_completions_create := script;
  json_loads := json_loads (world_of script);
  tool_server_post := fun _ _ => inl (RequestException "Connection refused");
  json_dumps := fun _ => "{" +:+ dq +:+ "error" +:+ dq +:+ ": " +:+ dq +:+
                         "Connection refused" +:+ dq +:+ "}";
  py_repr := py_repr (world_of script)
|}.

(** The sample world with arguments that do not parse. *)
Definition world_with_bad_arguments (script : list message -> exn + response) : World := {|
  CEREBRAS_API_KEY := CEREBRAS_API_KEY (world_of script);
  TOOL_API_KEY := TOOL_API_KEY (world_of script);
  chat_completions_create := script;
  json_loads := fun _ => inl (JSONDecodeError "Expecting value: line 1 column 1 (char 0)");
  tool_server_post := tool_server_post (world_of script);
  json_dumps := json_dumps (world_of script);
  py_repr := py_repr (world_of script)
|}.

(** The sample world without the key of the tool server. *)
Definition world_without_tool_key (script : list message -> exn + response) : World := {|
  CEREBRAS_API_KEY := CEREBRAS_API_KEY (world_of script);
  TOOL_API_KEY := None;
  chat_completions_create := script;
  json_loads := json_loads (world_of script);
  tool_server_post := tool_server_post (world_of script);
  json_dumps := json_dumps (world_of script);
  py_repr := py_repr (world_of script)
|}.

End LlmAgentMoreSpec.

Module MainMoreSpec.
Import LlmAgentLangchain Main.

(** The entry [upload_file] records for a session. *)
Definition session_entry (file : UploadFile) : list (string * json) :=
  [("filename", opt_json (filename file));
   ("filepath", JStr CONFIG_FILE_PATH);
   ("content_type", opt_json (content_type file));
   ("size", JNum (Z.of_nat (String.length (copied file))))].

(** What [clear_history] leaves of a process. *)
Definition cleared (sid : string) (s : server) : server :=
  {| files := delete CONFIG_FILE_PATH (files s);
     session_data := delete sid (session_data s);
     sre_agent := {| agent_executor := agent_executor (sre_agent s); chat_history := [] |} |}.

(** A response was returned, with one of the three codes of the module. *)
Definition served (r : exn + JSONResponse) : bool :=
  match r with
  | inr resp =>
      Nat.eqb (status_code resp) 200 || Nat.eqb (status_code resp) 400 ||
      Nat.eqb (status_code resp) 500
  | inl _ => false
  end.

End MainMoreSpec.

(** * Properties of the dispatcher *)

Module KubconnectFacts.
Import Kubconnect KubconnectSpec.

Ltac py_unfold :=
  unfold resource_map_of, frame0 in *;
  unfold execute_k8s_query, try_block, handlers, get_api_map_from_csv, getattr, invoke, emit,
    set_method_name, get_method_name, error_result,
    Py.try_except, Py.bind, Py.lift, Py.ret, Py.raise, Py.modify, Py.get in *;
  cbn [fst snd events method_name app] in *.

(** No handler touches the frame: the three [except] clauses only build a
    result or raise. *)
Lemma handlers_frame w e s : fst (handlers w e s) = s.
Proof.
  destruct e; py_unfold; try reflexivity.
  destruct (loads_body w body) as [e|j]; [reflexivity|].
  destruct (body_get j "message"); reflexivity.
Qed.

(** The effects of a call are those of its [try] block. *)
Lemma execute_k8s_query_frame w rt ns name :
  fst (execute_k8s_query w rt ns name) = fst (try_block w rt ns name frame0).
Proof.
  unfold execute_k8s_query, Py.bind, set_method_name, Py.modify, Py.try_except, frame0.
  cbn [events].
  destruct (try_block w rt ns name _) as [s [e|r]]; [apply handlers_frame|reflexivity].
Qed.

(** The trace of the [try] block, case by case. *)
Lemma try_block_events w rt ns name :
  events (fst (try_block w rt ns name frame0)) =
    EvLoadKubeConfig "tmp/uploads/config" ::
    match load_kube_config w "tmp/uploads/config" with
    | inl _ => []
    | inr _ =>
        EvReadCsv "tools/resources.csv" ::
        match resource_map_of w with
        | inl _ => []
        | inr m =>
            match m !! lower rt with
            | None => []
            | Some (api, suffix) =>
                dispatch_events w api (query_method name suffix) (query_kwargs ns name)
            end
        end
    end.
Proof.
  unfold dispatch_events, query_method, query_kwargs. py_unfold.
  destruct (load_kube_config w _) as [e|[]]; [reflexivity|].
  destruct (open_csv w _) as [e|rows]; [reflexivity|]. cbn [snd].
  destruct (read_rows rows ∅) as [e|m]; [reflexivity|].
  destruct (m !! lower rt) as [[api suffix]|]; [|reflexivity].
  destruct (api_getattr w api _) as [func|]; [|reflexivity].
  destruct (func _) as [e|obj]; [reflexivity|].
  destruct (to_dict obj); reflexivity.
Qed.

Lemma execute_k8s_query_events w rt ns name :
  events (fst (execute_k8s_query w rt ns name)) =
    EvLoadKubeConfig "tmp/uploads/config" ::
    match load_kube_config w "tmp/uploads/config" with
    | inl _ => []
    | inr _ =>
        EvReadCsv "tools/resources.csv" ::
        match resource_map_of w with
        | inl _ => []
        | inr m =>
            match m !! lower rt with
            | None => []
            | Some (api, suffix) =>
                dispatch_events w api (query_method name suffix) (query_kwargs ns name)
            end
        end
    end.
Proof. rewrite execute_k8s_query_frame. apply try_block_events. Qed.

(** When the mapping is there, so is the configuration. *)
Lemma resource_map_config w m :
  resource_map_of w = inr m -> exists u, load_kube_config w "tmp/uploads/config" = inr u.
Proof.
  unfold resource_map_of. destruct (load_kube_config w _) as [e|u]; [intros [=]|eauto].
Qed.

Lemma api_events_dispatch w api m kwargs :
  api_events (dispatch_events w api m kwargs) = dispatch_events w api m kwargs.
Proof. unfold dispatch_events. destruct (api_getattr w api m); reflexivity. Qed.

(** A composed name starts with a query prefix and with no mutating verb,
    whatever the suffix. *)
Lemma query_method_read_only name suffix :
  is_query_operation (query_method name suffix) && negb (is_mutating (query_method name suffix))
  = true.
Proof. unfold query_method. destruct (truthy name), suffix; reflexivity. Qed.

Lemma dispatch_events_read_only w api name suffix kwargs :
  forallb read_only_event (dispatch_events w api (query_method name suffix) kwargs) = true.
Proof.
  unfold dispatch_events. pose proof (query_method_read_only name suffix) as H.
  destruct (api_getattr w api _); cbn [forallb read_only_event]; rewrite H; reflexivity.
Qed.

(** An exception leaves the function only from the [ApiException] handler:
    the [try] block raised an [ApiException] and turning its body into a
    message raised in turn. *)
Lemma execute_k8s_query_escape w rt ns name e :
  snd (execute_k8s_query w rt ns name) = inl e ->
  exists body,
    snd (try_block w rt ns name frame0) = inl (ApiException body) /\
    (loads_body w body = inl e \/
     exists j, loads_body w body = inr j /\ body_get j "message" = inl e).
Proof.
  unfold execute_k8s_query, Py.bind, set_method_name, Py.modify, Py.try_except, frame0.
  cbn [events].
  destruct (try_block w rt ns name _) as [s [e0|r]]; [|intros [=]].
  destruct e0; py_unfold; try (intros H; discriminate H).
  destruct (loads_body w body) as [e1|j] eqn:Hl.
  - intros [= ->]. exists body. split; [reflexivity|left; exact Hl].
  - destruct (body_get j "message") as [e1|v] eqn:Hg; [|intros [=]].
    intros [= ->]. exists body. split; [reflexivity|right; exists j; split; [exact Hl|exact Hg]].
Qed.

(** Unless the [try] block raises an [ApiException], the call ends in a
    result dictionary. *)
Lemma execute_k8s_query_returns_unless_api_error w rt ns name :
  (forall body, snd (try_block w rt ns name frame0) <> inl (ApiException body)) ->
  exists r, snd (execute_k8s_query w rt ns name) = inr r.
Proof.
  intros Hno. destruct (snd (execute_k8s_query w rt ns name)) as [e|r] eqn:Hrun; [|eauto].
  destruct (execute_k8s_query_escape w rt ns name e Hrun) as [body [Hraised _]].
  contradiction (Hno body).
Qed.

(** A composed operation name that the client does not have gives the
    internal-error envelope, which quotes the name. *)
Lemma execute_k8s_query_missing_method w rt ns name m api suffix :
  resource_map_of w = inr m ->
  m !! lower rt = Some (api, suffix) ->
  api_getattr w api (query_method name suffix) = None ->
  snd (execute_k8s_query w rt ns name) =
    inr (error_result ("Internal Tool Error: Could not find method '" +:+
                       query_method name suffix +:+ "'. Check the API map.")).
Proof.
  revert m. unfold query_method. py_unfold. intros m.
  destruct (load_kube_config w _) as [e|[]]; [intros [=]|].
  destruct (open_csv w _) as [e|rows]; [intros [=]|].
  cbn [snd]. intros -> -> ->. reflexivity.
Qed.

(** The end-to-end example: pods of [kube-system], no name. *)
Example execute_k8s_query_list_pods :
  execute_k8s_query demo_cluster "pod" "kube-system" None =
    ({| events :=
          [EvLoadKubeConfig "tmp/uploads/config"; EvReadCsv "tools/resources.csv";
           EvGetattr V1 "list_namespaced_pod";
           EvInvoke V1 "list_namespaced_pod" [("namespace", "kube-system")]];
        method_name := "list_namespaced_pod" |},
     inr {| status := "success"; data := pod_list |}).
Proof. vm_compute. reflexivity. Qed.

(** C1. The dispatcher lets an exception escape when the remote API error
    cannot be converted: with an [ApiException] whose body is [None], or whose
    body is the plain text [Unauthorized], [json.loads] raises inside the
    handler and the exception leaves [execute_k8s_query] instead of a result
    dictionary. *)
Theorem execute_k8s_query_api_error_escapes :
  snd (execute_k8s_query (failing_cluster None) "pod" "default" (Some "web-0")) =
    inl (TypeError "the JSON object must be str, bytes or bytearray, not NoneType") /\
  snd (execute_k8s_query (failing_cluster (Some "Unauthorized")) "pod" "default" None) =
    inl (JSONDecodeError "Expecting value: line 1 column 1 (char 0)").
Proof. split; vm_compute; reflexivity. Qed.

(** C2, as the source has it: for a supported resource type the operation
    is chosen by the truth value of [name]. A non-empty name looks up
    [read_namespaced_<suffix>] and calls it with namespace and name; an absent
    or empty name looks up [list_namespaced_<suffix>] and calls it with the
    namespace only. *)
Theorem execute_k8s_query_mode_by_truthiness w rt ns name m api suffix :
  resource_map_of w = inr m ->
  m !! lower rt = Some (api, suffix) ->
  api_events (events (fst (execute_k8s_query w rt ns name))) =
    match name with
    | Some (String c rest) =>
        dispatch_events w api ("read_namespaced_" +:+ suffix)
          [("namespace", ns); ("name", String c rest)]
    | _ =>
        dispatch_events w api ("list_namespaced_" +:+ suffix) [("namespace", ns)]
    end.
Proof.
  intros Hmap Hhit. rewrite execute_k8s_query_events.
  destruct (resource_map_config w m Hmap) as [u ->]. rewrite Hmap, Hhit.
  cbn [api_events List.filter is_api_event]. fold (api_events).
  rewrite api_events_dispatch.
  destruct name as [[|c rest]|]; reflexivity.
Qed.

(** A run of the theorem above: [Pod] with a name in [kube-system]. *)
Lemma execute_k8s_query_mode_by_truthiness_witness :
  resource_map_of demo_cluster = inr demo_map /\
  demo_map !! lower "Pod" = Some (V1, "pod") /\
  api_events (events (fst (execute_k8s_query demo_cluster "Pod" "kube-system" (Some "web-0")))) =
    dispatch_events demo_cluster V1 "read_namespaced_pod"
      [("namespace", "kube-system"); ("name", "web-0")].
Proof.
  split; [vm_compute; reflexivity|]. split; [vm_compute; reflexivity|].
  apply (execute_k8s_query_mode_by_truthiness demo_cluster "Pod" "kube-system"
           (Some "web-0") demo_map V1 "pod"); vm_compute; reflexivity.
Defined.

(** C2 as stated fails: with the empty string as name the dispatcher lists. *)
Lemma execute_k8s_query_empty_name_lists :
  api_events (events (fst (execute_k8s_query demo_cluster "pod" "default" (Some "")))) =
    [EvGetattr V1 "list_namespaced_pod";
     EvInvoke V1 "list_namespaced_pod" [("namespace", "default")]] /\
  ~ In (EvInvoke V1 "read_namespaced_pod" [("namespace", "default"); ("name", "")])
       (events (fst (execute_k8s_query demo_cluster "pod" "default" (Some "")))).
Proof.
  split; [vm_compute; reflexivity|].
  vm_compute. intros H. repeat (destruct H as [H|H]; [discriminate H|]). exact H.
Qed.

(** C3. A resource type that is not in the mapping gives the error
    envelope that names the string as supplied; the call loads the
    configuration and reads the mapping once, touches no API operation and
    returns. *)
Theorem execute_k8s_query_unsupported w rt ns name m :
  resource_map_of w = inr m ->
  m !! lower rt = None ->
  execute_k8s_query w rt ns name =
    ({| events := [EvLoadKubeConfig "tmp/uploads/config"; EvReadCsv "tools/resources.csv"];
        method_name := "" |},
     inr {| status := "error";
            data := JStr ("Unsupported resource type: '" +:+ rt +:+ "'.") |}) /\
  api_events (events (fst (execute_k8s_query w rt ns name))) = [].
Proof.
  revert m. py_unfold. intros m.
  destruct (load_kube_config w _) as [e|[]]; [intros [=]|].
  destruct (open_csv w _) as [e|rows]; [intros [=]|].
  cbn [snd]. intros -> ->. split; reflexivity.
Qed.

Lemma execute_k8s_query_unsupported_witness :
  resource_map_of demo_cluster = inr demo_map /\
  demo_map !! lower "Widget" = None /\
  snd (execute_k8s_query demo_cluster "Widget" "default" None) =
    inr {| status := "error"; data := JStr "Unsupported resource type: 'Widget'." |}.
Proof.
  split; [vm_compute; reflexivity|]. split; [vm_compute; reflexivity|].
  pose proof (execute_k8s_query_unsupported demo_cluster "Widget" "default" None demo_map) as H.
  destruct H as [H _]; [vm_compute; reflexivity | vm_compute; reflexivity |].
  rewrite H. reflexivity.
Defined.

(** C4. Whatever the inputs and whatever the mapping file holds, every
    operation the dispatcher looks up or calls is named [read_namespaced_...]
    or [list_namespaced_...], and never starts with a mutating verb. *)
Theorem execute_k8s_query_read_only w rt ns name :
  forallb read_only_event (events (fst (execute_k8s_query w rt ns name))) = true.
Proof.
  rewrite execute_k8s_query_events. cbn [forallb read_only_event andb].
  destruct (load_kube_config w _); [reflexivity|]. cbn [forallb read_only_event andb].
  destruct (resource_map_of w) as [e|m]; [reflexivity|].
  destruct (m !! lower rt) as [[api suffix]|]; [|reflexivity].
  apply dispatch_events_read_only.
Qed.

Lemma mapping_reads_app l1 l2 :
  mapping_reads (l1 ++ l2) = mapping_reads l1 + mapping_reads l2.
Proof. unfold mapping_reads. rewrite List.filter_app, length_app. reflexivity. Qed.

Lemma mapping_reads_dispatch w api m kwargs :
  mapping_reads (dispatch_events w api m kwargs) = 0.
Proof. unfold dispatch_events. destruct (api_getattr w api m); reflexivity. Qed.

(** One query opens the mapping source once, unless the configuration
    could not be loaded. *)
Lemma mapping_reads_query w rt ns name :
  mapping_reads (events (fst (execute_k8s_query w rt ns name))) =
    match load_kube_config w "tmp/uploads/config" with
    | inr _ => 1
    | inl _ => 0
    end.
Proof.
  rewrite execute_k8s_query_events.
  destruct (load_kube_config w _); [reflexivity|].
  destruct (resource_map_of w) as [e|m]; [reflexivity|].
  destruct (m !! lower rt) as [[api suffix]|]; [|reflexivity].
  change (S (mapping_reads (dispatch_events w api (query_method name suffix)
                              (query_kwargs ns name))) = 1).
  rewrite mapping_reads_dispatch. reflexivity.
Qed.

(** The API events of a query are those of the mapping read by that very
    call. *)
Lemma api_events_query w rt ns name :
  api_events (events (fst (execute_k8s_query w rt ns name))) =
    match resource_map_of w with
    | inl _ => []
    | inr m =>
        match m !! lower rt with
        | None => []
        | Some (api, suffix) =>
            dispatch_events w api (query_method name suffix) (query_kwargs ns name)
        end
    end.
Proof.
  rewrite execute_k8s_query_events.
  destruct (load_kube_config w _) as [e|u] eqn:Hload.
  - unfold resource_map_of. rewrite Hload. reflexivity.
  - destruct (resource_map_of w) as [e|m]; [reflexivity|].
    destruct (m !! lower rt) as [[api suffix]|]; [|reflexivity].
    cbn [api_events List.filter is_api_event]. apply api_events_dispatch.
Qed.

(** C7, as the source has it: the mapping source is opened by every query
    that gets past the loading of the configuration, once per query, so a
    process that serves a sequence of queries opens it as many times as it
    has such queries; and each query dispatches by the mapping that its own
    call read. *)
Theorem mapping_read_once_per_query (steps : list (World * query)) :
  mapping_reads (process_events steps) = length (List.filter config_loads steps) /\
  Forall (fun step =>
            api_events
              (events (fst (execute_k8s_query (fst step) (q_resource_type (snd step))
                              (q_namespace (snd step)) (q_name (snd step))))) =
            match resource_map_of (fst step) with
            | inl _ => []
            | inr m =>
                match m !! lower (q_resource_type (snd step)) with
                | None => []
                | Some (api, suffix) =>
                    dispatch_events (fst step) api (query_method (q_name (snd step)) suffix)
                      (query_kwargs (q_namespace (snd step)) (q_name (snd step)))
                end
            end) steps.
Proof.
  split.
  - unfold process_events, serve.
    induction steps as [|[w q] steps IH]; [reflexivity|].
    cbn [map concat List.filter fst snd]. rewrite mapping_reads_app, IH, mapping_reads_query.
    unfold config_loads at 2. cbn [fst].
    destruct (load_kube_config w _); reflexivity.
  - induction steps as [|step steps IH]; constructor; [apply api_events_query|exact IH].
Qed.

(** C7 as stated fails: a single query reads the mapping source, two queries
    read it twice, and after the file changed the second dispatch works with
    another mapping than the first. *)
Lemma mapping_reread_on_every_query :
  mapping_reads (events (fst (execute_k8s_query demo_cluster "pod" "default" None))) = 1 /\
  mapping_reads (process_events [(demo_cluster, q_pods); (demo_cluster_edited, q_pods)]) = 2 /\
  snd (execute_k8s_query demo_cluster "pod" "default" None) =
    inr {| status := "success"; data := pod_list |} /\
  snd (execute_k8s_query demo_cluster_edited "pod" "default" None) =
    inr {| status := "error"; data := JStr "Unsupported resource type: 'pod'." |}.
Proof. repeat split; vm_compute; reflexivity. Qed.

End KubconnectFacts.

(** * Properties of the stateful agent *)

Module LlmAgentLangchainFacts.
Import LlmAgentLangchain LlmAgentLangchainSpec.

(** A turn whose invocation returns appends the question and the answer, in
    this order, and returns the answer. *)
Lemma chat_appends_turn (w : World) self q resp out :
  invoke w (agent_executor self) q (chat_history self) = inr resp ->
  resp !! "output" = Some out ->
  chat w q self =
    ({| agent_executor := agent_executor self;
        chat_history := chat_history self ++ [HumanMessage q; AIMessage out] |}, inr out).
Proof.
  intros Hinv Hout.
  unfold chat, history_append, response_get, Py.bind, Py.lift, Py.get, Py.modify.
  rewrite Hinv. cbn [agent_executor chat_history]. rewrite Hout.
  cbn [agent_executor chat_history]. rewrite <- app_assoc. reflexivity.
Qed.

(** The history changes only when the invocation returned. *)
Lemma chat_history_changes_only_on_success (w : World) self q :
  chat_history (fst (chat w q self)) <> chat_history self ->
  exists resp, invoke w (agent_executor self) q (chat_history self) = inr resp.
Proof.
  unfold chat, Py.bind, Py.lift, Py.get.
  destruct (invoke w _ q _) as [e|resp]; [|eauto].
  cbn [fst]. intros H. contradiction H. reflexivity.
Qed.

(** C9. [start_new_session] leaves the history empty, whatever it was;
    doing it twice is doing it once; on a session whose history is already
    empty it changes nothing. *)
Theorem start_new_session_idempotent (self : KubernetesSREAgent) (ex : AgentExecutor) :
  chat_history (fst (start_new_session self)) = [] /\
  fst (start_new_session (fst (start_new_session self))) = fst (start_new_session self) /\
  fst (start_new_session {| agent_executor := ex; chat_history := [] |}) =
    {| agent_executor := ex; chat_history := [] |} /\
  snd (start_new_session self) = inr tt.
Proof. unfold start_new_session, Py.modify. repeat split. Qed.

(** C10. When the invocation of the executor raises, [chat] raises the same
    exception and [self] is what it was: neither the question nor an answer is
    in the history. *)
Theorem chat_failed_turn_atomic (w : World) self q e :
  invoke w (agent_executor self) q (chat_history self) = inl e ->
  chat w q self = (self, inl e) /\
  chat_history (fst (chat w q self)) = chat_history self.
Proof.
  intros Hinv. unfold chat, Py.bind, Py.lift, Py.get. rewrite Hinv. split; reflexivity.
Qed.

(** A failed turn after a completed one: the history still holds the
    completed turn only. *)
Lemma chat_failed_turn_atomic_witness :
  invoke executor_down (agent_executor (agent_with one_turn)) "And the services?"
    (chat_history (agent_with one_turn)) = inl (PyException "Connection error.") /\
  chat executor_down "And the services?" (agent_with one_turn) =
    (agent_with one_turn, inl (PyException "Connection error.")) /\
  chat_history (fst (chat executor_down "And the services?" (agent_with one_turn))) = one_turn.
Proof.
  split; [reflexivity|].
  apply (chat_failed_turn_atomic executor_down (agent_with one_turn) "And the services?"
           (PyException "Connection error.")).
  reflexivity.
Defined.

End LlmAgentLangchainFacts.

(** * Properties of the agent loop *)

Module LlmAgentFacts.
Import LlmAgent LlmAgentSpec.

Ltac agent_unfold :=
  unfold run_agent_query, first_call, second_call, call_tool, on_request_exception, create, post,
    print, emit, set_messages, messages_append, get_messages,
    Py.try_except, Py.bind, Py.lift, Py.ret, Py.raise, Py.modify, Py.get in *;
  cbn [fst snd events messages app] in *.

Tactic Notation "shape" uconstr(C) :=
  cbn [fst snd events messages app]; eapply C; try eassumption; reflexivity.

(** Every turn ends in one of the five shapes. *)
Lemma run_agent_query_shape w p : turn_shape w p (fst (run_agent_query w p)).
Proof.
  agent_unfold.
  destruct (negb (key_set (CEREBRAS_API_KEY w)) || negb (truthy (TOOL_API_KEY w)));
    [shape ShapeNoKeys|].
  cbn [fst snd events messages app].
  destruct (chat_completions_create w _) as [e|r] eqn:Hfirst.
  { destruct e; shape ShapeFirstFailed. }
  destruct (tool_calls r) as [|tc rest] eqn:Hcalls.
  { shape ShapeNoDispatch. }
  destruct (String.eqb (tc_name tc) _); [|shape ShapeNoDispatch].
  destruct (json_loads w _) as [e|a]; [shape ShapeNoDispatch|].
  destruct (tool_server_post w _ a) as [e|res].
  - destruct e; try (shape ShapePostRaised);
      cbn [fst snd events messages app];
      (destruct (chat_completions_create w (_ :: _ :: _ :: _)) as [e|r2];
       [destruct e|]; shape ShapeDispatched).
  - cbn [fst snd events messages app].
    destruct (chat_completions_create w (_ :: _ :: _ :: _)) as [e|r2];
      [destruct e|]; shape ShapeDispatched.
Qed.

(** The whole run of a round trip. *)
Lemma run_agent_query_round_trip_frame w user_prompt r1 tc tool_args tool_result r2 :
  key_set (CEREBRAS_API_KEY w) = true ->
  truthy (TOOL_API_KEY w) = true ->
  chat_completions_create w (seed user_prompt) = inr r1 ->
  tool_calls r1 = [tc] ->
  tc_name tc = "execute_kubernetes_query" ->
  json_loads w (tc_arguments tc) = inr tool_args ->
  tool_server_post w TOOL_SERVER_URL tool_args = inr tool_result ->
  chat_completions_create w
    (seed user_prompt ++
     [Assistant r1; Tool (tc_id tc) "execute_kubernetes_query" (json_dumps w tool_result)])
    = inr r2 ->
  run_agent_query w user_prompt =
    ({| events :=
          [EvPrint ("👤 User: " +:+ user_prompt +:+ nl);
           EvModelCall (seed user_prompt);
           EvPrint "🤖 LLM wants to call the Kubernetes tool...";
           EvPrint ("   Calling function with args: " +:+ py_repr w tool_args);
           EvToolPost TOOL_SERVER_URL tool_args;
           EvPrint ("✅ Tool executed successfully." +:+ nl);
           EvPrint "🗣️ Sending tool result back to LLM for final response...";
           EvModelCall
             (seed user_prompt ++
              [Assistant r1;
               Tool (tc_id tc) "execute_kubernetes_query" (json_dumps w tool_result)]);
           EvPrint (final_line (content r2))];
        messages :=
          seed user_prompt ++
          [Assistant r1; Tool (tc_id tc) "execute_kubernetes_query" (json_dumps w tool_result)] |},
     inr tt).
Proof.
  intros Hk1 Hk2 Hfirst Hcalls Hname Hargs Hpost Hsecond.
  unfold seed in *. cbn [app] in *.
  agent_unfold. rewrite Hk1, Hk2. cbn [negb orb fst snd events messages app].
  rewrite Hfirst, Hcalls, Hname, String.eqb_refl, Hargs.
  cbn [fst snd events messages app]. rewrite Hpost.
  cbn [fst snd events messages app]. rewrite Hsecond. reflexivity.
Qed.

(** What a dispatch leaves, whatever else the response requested and
    however the second model call ends. *)
Lemma run_agent_query_dispatch w p r tc rest tool_args tool_result :
  key_set (CEREBRAS_API_KEY w) = true ->
  truthy (TOOL_API_KEY w) = true ->
  chat_completions_create w (seed p) = inr r ->
  tool_calls r = tc :: rest ->
  tc_name tc = "execute_kubernetes_query" ->
  json_loads w (tc_arguments tc) = inr tool_args ->
  tool_outcome w tool_args = Some tool_result ->
  messages (fst (run_agent_query w p)) =
    seed p ++
    [Assistant r; Tool (tc_id tc) "execute_kubernetes_query" (json_dumps w tool_result)] /\
  tool_posts (events (fst (run_agent_query w p))) = [tool_args].
Proof.
  intros Hk1 Hk2 Hfirst Hcalls Hname Hargs. unfold tool_outcome.
  unfold seed in *. cbn [app] in *.
  agent_unfold. rewrite Hk1, Hk2. cbn [negb orb fst snd events messages app].
  rewrite Hfirst, Hcalls, Hname, String.eqb_refl, Hargs.
  cbn [fst snd events messages app].
  destruct (tool_server_post w _ tool_args) as [e|res].
  - destruct e; intros [= <-]. cbn [fst snd events messages app exn_str].
    destruct (chat_completions_create w (_ :: _ :: _ :: _)) as [e|r2];
      [destruct e|]; split; reflexivity.
  - intros [= <-]. cbn [fst snd events messages app].
    destruct (chat_completions_create w (_ :: _ :: _ :: _)) as [e|r2];
      [destruct e|]; split; reflexivity.
Qed.

(** No turn calls the model more than twice. *)
Lemma run_agent_query_model_calls w p :
  length (model_inputs (events (fst (run_agent_query w p)))) <= 2.
Proof.
  destruct (run_agent_query_shape w p) as
    [Hm Hc Hp | Hm Hc Hp | r Hr Hm Hc Hp | r tc rest a Hr Ht Hm Hc Hp
    | r tc rest a x Hr Ht Hm Hc Hp];
    rewrite Hc; cbn [length]; lia.
Qed.

(** C5, as the source has it. In [run_agent_query], when the first response
    requests exactly one call of [execute_kubernetes_query] and the tool server
    answers, the turn calls the model twice, the second time with the tool
    message, posts once to the tool server, prints the text of the second
    response as the final answer and returns nothing; the list [messages] ends
    with four entries: system, user, assistant with the tool call, tool
    result. In [KubernetesSREAgent.chat], a turn returns the output of the
    executor and adds two entries to the session history: the question and the
    answer. *)
Theorem agent_round_trip :
  (forall w user_prompt r1 tc tool_args tool_result r2,
     key_set (CEREBRAS_API_KEY w) = true ->
     truthy (TOOL_API_KEY w) = true ->
     chat_completions_create w (seed user_prompt) = inr r1 ->
     tool_calls r1 = [tc] ->
     tc_name tc = "execute_kubernetes_query" ->
     json_loads w (tc_arguments tc) = inr tool_args ->
     tool_server_post w TOOL_SERVER_URL tool_args = inr tool_result ->
     let history :=
       [System SYSTEM_PROMPT; User user_prompt; Assistant r1;
        Tool (tc_id tc) "execute_kubernetes_query" (json_dumps w tool_result)] in
     chat_completions_create w history = inr r2 ->
     let run := run_agent_query w user_prompt in
     model_inputs (events (fst run)) = [[System SYSTEM_PROMPT; User user_prompt]; history] /\
     tool_posts (events (fst run)) = [tool_args] /\
     last (printed (events (fst run))) = Some (final_line (content r2)) /\
     messages (fst run) = history /\
     snd run = inr tt) /\
  (forall (w : LlmAgentLangchain.World) self q resp out,
     LlmAgentLangchain.invoke w (LlmAgentLangchain.agent_executor self) q
       (LlmAgentLangchain.chat_history self) = inr resp ->
     resp !! "output" = Some out ->
     snd (LlmAgentLangchain.chat w q self) = inr out /\
     LlmAgentLangchain.chat_history (fst (LlmAgentLangchain.chat w q self)) =
       LlmAgentLangchain.chat_history self ++
       [LlmAgentLangchain.HumanMessage q; LlmAgentLangchain.AIMessage out]).
Proof.
  split.
  - intros w user_prompt r1 tc tool_args tool_result r2 Hk1 Hk2 Hfirst Hcalls Hname Hargs
      Hpost history Hsecond run.
    subst run. rewrite (run_agent_query_round_trip_frame w user_prompt r1 tc tool_args
      tool_result r2 Hk1 Hk2 Hfirst Hcalls Hname Hargs Hpost Hsecond).
    cbn [fst snd events messages]. repeat split.
  - intros w self q resp out Hinv Hout.
    rewrite (LlmAgentLangchainFacts.chat_appends_turn w self q resp out Hinv Hout).
    split; reflexivity.
Qed.

(** The round trip with the sample model, in both agents. *)
Lemma agent_round_trip_witness :
  messages (fst (run_agent_query (world_of round_trip_model) "List the pods.")) =
    [System SYSTEM_PROMPT; User "List the pods."; Assistant (asks_for [list_pods_call]);
     Tool "call_1" "execute_kubernetes_query"
       (json_dumps (world_of round_trip_model) tool_answer)] /\
  LlmAgentLangchain.chat_history
    (fst (LlmAgentLangchain.chat LlmAgentLangchainSpec.executor_up "Check the pods."
            LlmAgentLangchain.__init__)) =
    LlmAgentLangchainSpec.one_turn.
Proof.
  split.
  - apply (proj1 agent_round_trip (world_of round_trip_model) "List the pods."
             (asks_for [list_pods_call]) list_pods_call pod_args tool_answer
             (says "There are no pods in the default namespace."));
      reflexivity.
  - apply (proj2 agent_round_trip LlmAgentLangchainSpec.executor_up LlmAgentLangchain.__init__
             "Check the pods."
             ({[ "input" := "Check the pods."; "output" := "All pods are running." ]})
             "All pods are running."); reflexivity.
Defined.

(** C5 as stated fails: after the round trip the list [messages] has four
    entries, the final answer is not among them and is not returned; the
    session history of the stateful agent has two. *)
Lemma round_trip_leaves_four_messages :
  map role (messages (fst (run_agent_query (world_of round_trip_model) "List the pods."))) =
    ["system"; "user"; "assistant"; "tool"] /\
  length (messages (fst (run_agent_query (world_of round_trip_model) "List the pods."))) = 4 /\
  snd (run_agent_query (world_of round_trip_model) "List the pods.") = inr tt /\
  length (LlmAgentLangchain.chat_history
            (fst (LlmAgentLangchain.chat LlmAgentLangchainSpec.executor_up "Check the pods."
                    LlmAgentLangchain.__init__))) = 2.
Proof. repeat split; vm_compute; reflexivity. Qed.

(** C8, as the source has it. In every turn each tool message directly
    follows the assistant message that emitted its call identifier, and there
    is at most one tool message and one post to the tool server. When the
    response requests one or more calls, only the first is looked at: if it
    names [execute_kubernetes_query] and its arguments parse, it is posted and
    the outcome is appended as the tool message with the identifier of that
    first call. *)
Theorem run_agent_query_tool_messages w p :
  let run := run_agent_query w p in
  tool_messages_matched None (messages (fst run)) = true /\
  length (List.filter is_tool_message (messages (fst run))) <= 1 /\
  length (tool_posts (events (fst run))) <= 1 /\
  (forall r tc rest tool_args tool_result,
     key_set (CEREBRAS_API_KEY w) = true ->
     truthy (TOOL_API_KEY w) = true ->
     chat_completions_create w (seed p) = inr r ->
     tool_calls r = tc :: rest ->
     tc_name tc = "execute_kubernetes_query" ->
     json_loads w (tc_arguments tc) = inr tool_args ->
     tool_outcome w tool_args = Some tool_result ->
     messages (fst run) =
       seed p ++
       [Assistant r; Tool (tc_id tc) "execute_kubernetes_query" (json_dumps w tool_result)] /\
     tool_posts (events (fst run)) = [tool_args]).
Proof.
  cbv zeta. split; [|split; [|split]].
  - destruct (run_agent_query_shape w p) as
      [Hm Hc Hp | Hm Hc Hp | r Hr Hm Hc Hp | r tc rest a Hr Ht Hm Hc Hp
      | r tc rest a x Hr Ht Hm Hc Hp];
      rewrite Hm; try reflexivity.
    unfold seed. cbn [app tool_messages_matched has_call_id andb].
    rewrite Ht. cbn [existsb]. rewrite String.eqb_refl. reflexivity.
  - destruct (run_agent_query_shape w p) as
      [Hm Hc Hp | Hm Hc Hp | r Hr Hm Hc Hp | r tc rest a Hr Ht Hm Hc Hp
      | r tc rest a x Hr Ht Hm Hc Hp];
      rewrite Hm; cbn; lia.
  - destruct (run_agent_query_shape w p) as
      [Hm Hc Hp | Hm Hc Hp | r Hr Hm Hc Hp | r tc rest a Hr Ht Hm Hc Hp
      | r tc rest a x Hr Ht Hm Hc Hp];
      rewrite Hp; cbn; lia.
  - intros r tc rest tool_args tool_result. apply run_agent_query_dispatch.
Qed.

(** The theorem above on a response that requests two calls. *)
Lemma run_agent_query_tool_messages_witness :
  messages (fst (run_agent_query (world_of two_calls_model) "List everything.")) =
    seed "List everything." ++
    [Assistant (asks_for [list_pods_call; list_services_call]);
     Tool "call_1" "execute_kubernetes_query"
       (json_dumps (world_of two_calls_model) tool_answer)] /\
  tool_posts (events (fst (run_agent_query (world_of two_calls_model) "List everything."))) =
    [pod_args].
Proof.
  apply (proj2 (proj2 (proj2
           (run_agent_query_tool_messages (world_of two_calls_model) "List everything.")))
           (asks_for [list_pods_call; list_services_call]) list_pods_call
           [list_services_call] pod_args tool_answer); reflexivity.
Defined.

(** C8 as stated fails: of two requested calls only the first is dispatched
    and answered; no tool message carries the identifier of the second. *)
Lemma second_tool_call_dropped :
  List.filter is_tool_message
    (messages (fst (run_agent_query (world_of two_calls_model) "List everything."))) =
    [Tool "call_1" "execute_kubernetes_query"
       (json_dumps (world_of two_calls_model) tool_answer)] /\
  length (tool_posts
            (events (fst (run_agent_query (world_of two_calls_model) "List everything.")))) = 1 /\
  length (tool_calls (asks_for [list_pods_call; list_services_call])) = 2.
Proof. repeat split; vm_compute; reflexivity. Qed.

End LlmAgentFacts.

(** * Properties of the iteration loop *)

Module AgentLoopFacts.
Import LlmAgent AgentLoop AgentLoopSpec.

(** Whatever the model does, the loop calls it at most [budget] times. *)
Lemma iterate_model_calls_le c budget last s :
  model_calls (fst (iterate c budget last s)) <= model_calls s + budget.
Proof.
  revert last s. induction budget as [|budget IH]; intros last s; cbn [iterate].
  - cbn [fst]. lia.
  - destruct (model c (history s)) as [e|r]; [cbn [fst model_calls]; lia|].
    destruct (tool_calls r) as [|tc rest]; [cbn [fst model_calls]; lia|].
    etransitivity; [apply IH|]. cbn [model_calls]. lia.
Qed.

(** With a model that always requests a tool call the loop uses up the
    budget and returns. *)
Lemma iterate_insistent c budget last s :
  insistent c ->
  model_calls (fst (iterate c budget last s)) = model_calls s + budget /\
  exists answer, snd (iterate c budget last s) = inr answer.
Proof.
  intros Hc. revert last s. induction budget as [|budget IH]; intros last s; cbn [iterate].
  - cbn [fst snd]. split; [lia|eauto].
  - destruct (Hc (history s)) as [r [-> Hcalls]].
    destruct (tool_calls r) as [|tc rest]; [congruence|].
    destruct (IH (content r)
      {| history := history s ++ [Assistant r] ++ map (tool_message c) (tc :: rest);
         model_calls := model_calls
           {| history := history s; model_calls := S (model_calls s);
              dispatched := dispatched s |};
         dispatched := dispatched s ++ tc :: rest |}) as [Hn Hret].
    split; [rewrite Hn; cbn [model_calls]; lia|exact Hret].
Qed.

(** C6. The executor is configured with a budget of 15 iterations, within
    10 to 15. With a model that requests a tool call on every response the
    loop calls the model exactly that many times and returns; with any model
    it calls it at most that many times. The loop-free [run_agent_query] calls
    the model at most twice in a turn. *)
Theorem iteration_budget (c : Collaborators) (session : list message) (question : string) :
  insistent c ->
  let cfg := LlmAgentLangchain.agent_executor LlmAgentLangchain.__init__ in
  10 <= LlmAgentLangchain.max_iterations cfg <= 15 /\
  model_calls (fst (turn cfg c session question)) = LlmAgentLangchain.max_iterations cfg /\
  (exists answer, snd (turn cfg c session question) = inr answer) /\
  (forall c' session' question',
     model_calls (fst (turn cfg c' session' question')) <=
     LlmAgentLangchain.max_iterations cfg) /\
  (forall w user_prompt,
     length (LlmAgentSpec.model_inputs (events (fst (run_agent_query w user_prompt)))) <= 2).
Proof.
  intros Hc cfg. split; [cbn; lia|]. unfold turn.
  destruct (iterate_insistent c (LlmAgentLangchain.max_iterations cfg) None
    {| history := session ++ [User question]; model_calls := 0; dispatched := [] |} Hc)
    as [Hn Hret].
  split; [exact Hn|]. split; [exact Hret|]. split.
  - intros c' session' question'.
    apply (iterate_model_calls_le c' (LlmAgentLangchain.max_iterations cfg) None
      {| history := session' ++ [User question']; model_calls := 0; dispatched := [] |}).
  - apply LlmAgentFacts.run_agent_query_model_calls.
Qed.

(** The budget on the sample model that never stops asking. *)
Lemma iteration_budget_witness :
  insistent insistent_collaborators /\
  model_calls
    (fst (turn (LlmAgentLangchain.agent_executor LlmAgentLangchain.__init__)
            insistent_collaborators [System SYSTEM_PROMPT] "Why is the pod crashing?")) = 15.
Proof.
  assert (H : insistent insistent_collaborators).
  { intros l. exists (LlmAgentSpec.asks_for [LlmAgentSpec.list_pods_call]).
    split; [reflexivity|discriminate]. }
  split; [exact H|].
  exact (proj1 (proj2 (iteration_budget insistent_collaborators [System SYSTEM_PROMPT]
                         "Why is the pod crashing?" H))).
Defined.

End AgentLoopFacts.

(** * More on the dispatcher *)

Module KubconnectMoreFacts.
Import Kubconnect KubconnectSpec MoreSpec MoreSpec2 KubconnectFacts.



(** X1. Two spellings of a supported resource type that differ only in the
    case of their letters give the same run of the dispatcher: the same
    effects and the same result. *)
Theorem execute_k8s_query_case_insensitive w rt1 rt2 ns name m api suffix :
  lower rt1 = lower rt2 ->
  resource_map_of w = inr m ->
  m !! lower rt1 = Some (api, suffix) ->
  execute_k8s_query w rt1 ns name = execute_k8s_query w rt2 ns name.
Proof.
  revert m. py_unfold. intros m Hl.
  destruct (load_kube_config w _) as [e|[]]; [intros [=]|].
  destruct (open_csv w _) as [e|rows]; [intros [=]|].
  cbn [snd]. intros -> Hhit. rewrite <- Hl, Hhit. reflexivity.
Qed.

Lemma execute_k8s_query_case_insensitive_witness :
  execute_k8s_query demo_cluster "Pod" "default" None =
  execute_k8s_query demo_cluster "POD" "default" None.
Proof.
  apply (execute_k8s_query_case_insensitive demo_cluster "Pod" "POD" "default" None
           demo_map V1 "pod"); vm_compute; reflexivity.
Defined.



(** X3. When the API call raises an [ApiException] whose body parses to a
    JSON object, the result is the error envelope with the text
    [Kubernetes API Error: ] followed by the object's [message], or by [None]
    when the object has no such key. *)
Theorem execute_k8s_query_api_error w rt ns name m api suffix func body fields :
  resource_map_of w = inr m ->
  m !! lower rt = Some (api, suffix) ->
  api_getattr w api (query_method name suffix) = Some func ->
  func (query_kwargs ns name) = inl (ApiException (Some body)) ->
  json_loads w body = inr (JDict fields) ->
  snd (execute_k8s_query w rt ns name) =
    inr (error_result ("Kubernetes API Error: " +:+
                       format_value w (assoc_get fields "message"))).
Proof.
  revert m. unfold query_method, query_kwargs. py_unfold. intros m.
  destruct (load_kube_config w _) as [e|[]]; [intros [=]|].
  destruct (open_csv w _) as [e|rows]; [intros [=]|].
  cbn [snd]. intros -> -> -> Hf Hj. cbn [app] in Hf. rewrite Hf.
  cbn [fst snd loads_body]. rewrite Hj. reflexivity.
Qed.

Lemma execute_k8s_query_api_error_witness :
  snd (execute_k8s_query not_found_cluster "pod" "default" (Some "web-0")) =
    inr (error_result "Kubernetes API Error: pods web-0 not found").
Proof.
  apply (execute_k8s_query_api_error not_found_cluster "pod" "default" (Some "web-0")
           demo_map V1 "pod" (fun _ => inl (ApiException (Some not_found_body)))
           not_found_body
           [("kind", JStr "Status"); ("message", JStr "pods web-0 not found")]);
    vm_compute; reflexivity.
Defined.

(** The mapping names a deployment operation that the sample cluster's
    apps client does not have. *)
Lemma execute_k8s_query_missing_method_witness :
  snd (execute_k8s_query demo_cluster "deployment" "default" None) =
    inr (error_result
           "Internal Tool Error: Could not find method 'list_namespaced_deployment'. Check the API map.").
Proof.
  apply (execute_k8s_query_missing_method demo_cluster "deployment" "default" None
           demo_map AppsV1 "deployment"); vm_compute; reflexivity.
Defined.

(** The envelope of a failed set-up. *)
Lemma setup_failure_result w rt ns name e :
  resource_map_of w = inl e ->
  plain e = true ->
  snd (execute_k8s_query w rt ns name) =
    inr (error_result ("An unexpected error occurred: " +:+ exn_str e)).
Proof.
  intros Hmap Hplain. revert Hmap. py_unfold.
  destruct (load_kube_config w _) as [e0|[]].
  - intros [= ->]. destruct e; try discriminate Hplain; reflexivity.
  - destruct (open_csv w _) as [e0|rows]; cbn [snd].
    + intros [= ->]. destruct e; try discriminate Hplain; reflexivity.
    + intros ->. destruct e; try discriminate Hplain; reflexivity.
Qed.

(** X5. When the configuration cannot be loaded, or the mapping cannot be
    read or built, with an exception that is neither an [ApiException] nor an
    [AttributeError], the result is the error envelope with
    [An unexpected error occurred: ] and the text of the exception, and no
    API operation is looked up or called. *)
Theorem execute_k8s_query_setup_failure w rt ns name e :
  resource_map_of w = inl e ->
  plain e = true ->
  snd (execute_k8s_query w rt ns name) =
    inr (error_result ("An unexpected error occurred: " +:+ exn_str e)) /\
  api_events (events (fst (execute_k8s_query w rt ns name))) = [].
Proof.
  intros Hmap Hplain. split; [exact (setup_failure_result w rt ns name e Hmap Hplain)|].
  rewrite api_events_query, Hmap. reflexivity.
Qed.

Lemma execute_k8s_query_setup_failure_witness :
  snd (execute_k8s_query unconfigured_cluster "pod" "default" None) =
    inr (error_result
           "An unexpected error occurred: Invalid kube-config file. No configuration found.") /\
  api_events (events (fst (execute_k8s_query unconfigured_cluster "pod" "default" None))) = [].
Proof.
  apply (execute_k8s_query_setup_failure unconfigured_cluster "pod" "default" None
           (PyException "Invalid kube-config file. No configuration found."));
    vm_compute; reflexivity.
Defined.

(** X6. When the composed operation exists and returns an object, the
    result is the success envelope whose data is exactly what [to_dict()]
    gives, after one lookup and one call with the composed keyword
    arguments. *)
Theorem execute_k8s_query_success w rt ns name m api suffix func obj d :
  resource_map_of w = inr m ->
  m !! lower rt = Some (api, suffix) ->
  api_getattr w api (query_method name suffix) = Some func ->
  func (query_kwargs ns name) = inr obj ->
  to_dict obj = inr d ->
  execute_k8s_query w rt ns name =
    ({| events :=
          [EvLoadKubeConfig "tmp/uploads/config"; EvReadCsv "tools/resources.csv";
           EvGetattr api (query_method name suffix);
           EvInvoke api (query_method name suffix) (query_kwargs ns name)];
        method_name := query_method name suffix |},
     inr {| status := "success"; data := d |}).
Proof.
  revert m. unfold query_method, query_kwargs. py_unfold. intros m.
  destruct (load_kube_config w _) as [e|[]]; [intros [=]|].
  destruct (open_csv w _) as [e|rows]; [intros [=]|].
  cbn [snd]. intros -> -> -> Hf Hd. cbn [app] in Hf. rewrite Hf.
  cbn [fst snd]. rewrite Hd. reflexivity.
Qed.

Lemma execute_k8s_query_success_witness :
  execute_k8s_query demo_cluster "Pod" "kube-system" (Some "web-0") =
    ({| events :=
          [EvLoadKubeConfig "tmp/uploads/config"; EvReadCsv "tools/resources.csv";
           EvGetattr V1 "read_namespaced_pod";
           EvInvoke V1 "read_namespaced_pod" [("namespace", "kube-system"); ("name", "web-0")]];
        method_name := "read_namespaced_pod" |},
     inr {| status := "success"; data := pod_list |}).
Proof.
  apply (execute_k8s_query_success demo_cluster "Pod" "kube-system" (Some "web-0")
           demo_map V1 "pod" (fun _ => inr {| to_dict := inr pod_list |})
           {| to_dict := inr pod_list |} pod_list);
    vm_compute; reflexivity.
Defined.

Lemma handlers_error w e s s' r :
  handlers w e s = (s', inr r) -> status r = "error" /\ exists msg, data r = JStr msg.
Proof.
  destruct e; py_unfold; try (intros [= _ <-]; split; [reflexivity|eauto]).
  destruct (loads_body w body) as [e|j]; [intros [=]|].
  destruct (body_get j "message"); [intros [=]|].
  intros [= _ <-]. split; [reflexivity|eauto].
Qed.

Lemma try_block_result w rt ns name s r :
  try_block w rt ns name frame0 = (s, inr r) ->
  (status r = "success" /\ length (invocations (events s)) = 1) \/
  (status r = "error" /\ exists msg, data r = JStr msg).
Proof.
  py_unfold.
  destruct (load_kube_config w _) as [e|[]]; [intros [=]|].
  destruct (open_csv w _) as [e|rows]; [intros [=]|].
  destruct (read_rows rows ∅) as [e|m]; [intros [=]|].
  destruct (m !! lower rt) as [[api suffix]|].
  - destruct (api_getattr w api _) as [func|]; [|intros [=]].
    destruct (func _) as [e|obj]; [intros [=]|].
    destruct (to_dict obj) as [e|d]; [intros [=]|].
    intros [= <- <-]. left. split; reflexivity.
  - intros [= _ <-]. right. split; [reflexivity|eauto].
Qed.

(** X7. Every dictionary the dispatcher returns is a normal envelope: its
    status is [success], and then exactly one API call was made, or its
    status is [error] and its data is a string. *)
Theorem execute_k8s_query_envelope w rt ns name r :
  snd (execute_k8s_query w rt ns name) = inr r ->
  (status r = "success" /\
   length (invocations (events (fst (execute_k8s_query w rt ns name)))) = 1) \/
  (status r = "error" /\ exists msg, data r = JStr msg).
Proof.
  rewrite execute_k8s_query_frame.
  unfold execute_k8s_query, Py.bind, set_method_name, Py.modify, Py.try_except, frame0.
  cbn [events].
  destruct (try_block w rt ns name _) as [s [e|r0]] eqn:Htb.
  - destruct (handlers w e s) as [s' res] eqn:Hh. cbn [snd]. intros ->.
    right. exact (handlers_error w e s s' r Hh).
  - cbn [fst snd]. intros [= ->]. exact (try_block_result w rt ns name s r Htb).
Qed.

Lemma execute_k8s_query_envelope_witness :
  (status {| status := "success"; data := pod_list |} = "success" /\
   length (invocations
             (events (fst (execute_k8s_query demo_cluster "pod" "default" None)))) = 1) \/
  (status {| status := "success"; data := pod_list |} = "error" /\
   exists msg, data {| status := "success"; data := pod_list |} = JStr msg).
Proof.
  apply (execute_k8s_query_envelope demo_cluster "pod" "default" None
           {| status := "success"; data := pod_list |}).
  vm_compute. reflexivity.
Defined.







Lemma read_rows_sound rows m0 m k c sf :
  read_rows rows m0 = inr m ->
  m !! k = Some (c, sf) ->
  m0 !! k = Some (c, sf) \/
  exists row, In row rows /\ full_row row k (version_name c) sf.
Proof.
  revert m0. induction rows as [|row rows IH]; intros m0; cbn [read_rows].
  - intros [= ->] Hk. left. exact Hk.
  - unfold row_get.
    destruct (row !! "api_version") as [v|] eqn:Hv; [|intros [=]].
    assert (Hskip : read_rows rows m0 = inr m -> m !! k = Some (c, sf) ->
            m0 !! k = Some (c, sf) \/
            exists row0, In row0 (row :: rows) /\ full_row row0 k (version_name c) sf).
    { intros Hr Hk. destruct (IH m0 Hr Hk) as [H|(row0 & Hin & Hfull)]; [left; exact H|].
      right. exists row0. split; [right; exact Hin|exact Hfull]. }
    assert (Hadd : forall c0 sf0 rs, v = version_name c0 ->
            row !! "method_suffix" = Some sf0 -> row !! "resource" = Some rs ->
            read_rows rows (<[rs := (c0, sf0)]> m0) = inr m -> m !! k = Some (c, sf) ->
            m0 !! k = Some (c, sf) \/
            exists row0, In row0 (row :: rows) /\ full_row row0 k (version_name c) sf).
    { intros c0 sf0 rs Hc0 Hs Hrs Hr Hk.
      destruct (IH _ Hr Hk) as [H|(row0 & Hin & Hfull)].
      - destruct (decide (rs = k)) as [->|Hne].
        + rewrite lookup_insert_eq in H. injection H as -> ->.
          right. exists row. split; [left; reflexivity|].
          repeat split; [exact Hrs|rewrite Hv, Hc0; reflexivity|exact Hs].
        + rewrite lookup_insert_ne in H by exact Hne. left. exact H.
      - right. exists row0. split; [right; exact Hin|exact Hfull]. }
    destruct (String.eqb v "v1") eqn:E1.
    + apply String.eqb_eq in E1.
      destruct (row !! "method_suffix") as [sf0|] eqn:Hs; [|intros [=]].
      destruct (row !! "resource") as [rs|] eqn:Hrs; [|intros [=]].
      exact (Hadd V1 sf0 rs E1 eq_refl eq_refl).
    + destruct (String.eqb v "apps_v1") eqn:E2; [|exact Hskip].
      apply String.eqb_eq in E2.
      destruct (row !! "method_suffix") as [sf0|] eqn:Hs; [|intros [=]].
      destruct (row !! "resource") as [rs|] eqn:Hrs; [|intros [=]].
      exact (Hadd AppsV1 sf0 rs E2 eq_refl eq_refl).
Qed.

(** X10. The mapping holds nothing but what the file says: every entry of
    a mapping that [get_api_map_from_csv] built comes from a row with that
    resource, that suffix and the version of that client; rows with another
    version leave no entry. *)
Theorem get_api_map_sound rows m k c sf :
  read_rows rows ∅ = inr m ->
  m !! k = Some (c, sf) ->
  exists row, In row rows /\ full_row row k (version_name c) sf.
Proof.
  intros Hr Hk. destruct (read_rows_sound rows ∅ m k c sf Hr Hk) as [H|H]; [|exact H].
  rewrite lookup_empty in H. discriminate H.
Qed.

Lemma get_api_map_sound_witness :
  exists row, In row resources_csv /\ full_row row "deployment" "apps_v1" "deployment".
Proof.
  apply (get_api_map_sound resources_csv demo_map "deployment" AppsV1 "deployment");
    vm_compute; reflexivity.
Defined.



(** X13. The tool of the agent passes its arguments on to the dispatcher:
    with the namespace omitted every call on the remote API is made in the
    namespace [default], and with a namespace given in that namespace. *)
Theorem get_kubernetes_resource_default_namespace w rt name ns :
  forallb (invoked_in "default")
    (events (fst (LlmAgentLangchainTool.get_kubernetes_resource w rt None name))) = true /\
  forallb (invoked_in ns)
    (events (fst (LlmAgentLangchainTool.get_kubernetes_resource w rt (Some ns) name))) = true.
Proof.
  assert (H : forall ns0,
    forallb (invoked_in ns0) (events (fst (execute_k8s_query w rt ns0 name))) = true).
  { intros ns0. rewrite execute_k8s_query_events. cbn [forallb invoked_in andb].
    destruct (load_kube_config w _); [reflexivity|]. cbn [forallb invoked_in andb].
    destruct (resource_map_of w) as [e|m]; [reflexivity|].
    destruct (m !! lower rt) as [[api suffix]|]; [|reflexivity].
    unfold dispatch_events, query_kwargs.
    destruct (api_getattr w api _); cbn [forallb invoked_in andb app];
      [rewrite String.eqb_refl|]; reflexivity. }
  split; apply H.
Qed.

End KubconnectMoreFacts.

Module DemoFacts.
Import Kubconnect KubconnectDemo.

(** X12. The demo responses succeed exactly for a pod (with or without a
    name), a service with a name and a deployment, in any letter case, unless
    the name is [non-existent-resource]; a list of services has no mock
    data. *)
Theorem demo_response_success_iff rt ns name :
  status (_handle_demo_response rt ns name) = "success" <->
  is_non_existent name = false /\
  (lower rt = "pod" \/ (lower rt = "service" /\ truthy name = true) \/ lower rt = "deployment").
Proof.
  unfold _handle_demo_response.
  destruct (is_non_existent name); cbn [status].
  { split; [intros [=]|intros [[=] _]]. }
  destruct (String.eqb_spec (lower rt) "pod") as [Hp|Hp].
  { destruct (truthy name); cbn [andb status]; split; auto. }
  cbn [andb].
  destruct (String.eqb_spec (lower rt) "service") as [Hs|Hs].
  { destruct (truthy name); cbn [andb status].
    - split; auto.
    - rewrite Hs. cbn [String.eqb Ascii.eqb Bool.eqb status].
      split; [intros [=]|]. intros [_ [H|[[_ H]|H]]]; discriminate H. }
  cbn [andb].
  destruct (String.eqb_spec (lower rt) "deployment") as [Hd|Hd]; cbn [status].
  { split; auto. }
  split; [intros [=]|]. intros [_ [H|[[H _]|H]]]; contradiction.
Qed.

End DemoFacts.

(** * More on the agent loop *)

Module LlmAgentMoreFacts.
Import LlmAgent LlmAgentSpec LlmAgentMoreSpec LlmAgentFacts.

Lemma keys_guard w :
  negb (key_set (CEREBRAS_API_KEY w)) || negb (truthy (TOOL_API_KEY w)) = negb (keys_set w).
Proof. unfold keys_set. destruct (key_set _), (truthy _); reflexivity. Qed.

(** Without one of the two keys the function prints the hint and returns:
    no model call, no message. *)
Lemma run_agent_query_missing_keys w p :
  keys_set w = false ->
  run_agent_query w p =
    ({| events :=
          [EvPrint "Error: Ensure CEREBRAS_API_KEY and TOOL_API_KEY environment variables are set."];
        messages := [] |}, inr tt).
Proof.
  intros Hk. agent_unfold. rewrite keys_guard, Hk. reflexivity.
Qed.

(** X14. When the first response requests no tool, the turn is one model
    call: its text is printed as the final answer and the response is the
    last of three messages. *)
Theorem run_agent_query_direct_answer w p r :
  keys_set w = true ->
  chat_completions_create w (seed p) = inr r ->
  tool_calls r = [] ->
  run_agent_query w p =
    ({| events :=
          [EvPrint ("👤 User: " +:+ p +:+ nl); EvModelCall (seed p);
           EvPrint (final_line (content r))];
        messages := seed p ++ [Assistant r] |}, inr tt).
Proof.
  intros Hk Hfirst Hcalls. unfold seed in *. agent_unfold. rewrite keys_guard, Hk.
  cbn [negb fst snd events messages app]. rewrite Hfirst, Hcalls. reflexivity.
Qed.

Lemma run_agent_query_direct_answer_witness :
  printed (events (fst (run_agent_query (world_of (fun _ => inr (says "Hello."))) "Hi"))) =
    ["👤 User: " +:+ "Hi" +:+ nl; final_line (Some "Hello.")].
Proof.
  exact (f_equal (fun run => printed (events (fst run)))
    (run_agent_query_direct_answer (world_of (fun _ => inr (says "Hello."))) "Hi"
       (says "Hello.") eq_refl eq_refl eq_refl)).
Defined.

(** X15. When the first requested call names another function than
    [execute_kubernetes_query], the turn ends after the first model call:
    nothing is dispatched, the model is not called again and no answer is
    printed. *)
Theorem run_agent_query_other_tool w p r tc rest :
  keys_set w = true ->
  chat_completions_create w (seed p) = inr r ->
  tool_calls r = tc :: rest ->
  tc_name tc <> "execute_kubernetes_query" ->
  run_agent_query w p =
    ({| events := [EvPrint ("👤 User: " +:+ p +:+ nl); EvModelCall (seed p)];
        messages := seed p ++ [Assistant r] |}, inr tt).
Proof.
  intros Hk Hfirst Hcalls Hname. unfold seed in *. agent_unfold. rewrite keys_guard, Hk.
  cbn [negb fst snd events messages app]. rewrite Hfirst, Hcalls.
  apply String.eqb_neq in Hname. rewrite Hname. reflexivity.
Qed.

Lemma run_agent_query_other_tool_witness :
  printed (events (fst (run_agent_query
                          (world_of (fun _ => inr (asks_for [weather_call; list_pods_call])))
                          "Hi"))) =
    ["👤 User: " +:+ "Hi" +:+ nl].
Proof.
  assert (H : tc_name weather_call <> "execute_kubernetes_query") by discriminate.
  exact (f_equal (fun run => printed (events (fst run)))
    (run_agent_query_other_tool
       (world_of (fun _ => inr (asks_for [weather_call; list_pods_call]))) "Hi"
       (asks_for [weather_call; list_pods_call]) weather_call [list_pods_call]
       eq_refl eq_refl eq_refl H)).
Defined.

(** X16. When the request to the tool server fails with a
    [RequestException], the turn goes on: the model is called a second time
    and sees a tool message whose content is the dictionary with the single
    key [error] and the text of the exception. *)
Theorem run_agent_query_tool_failure w p r tc rest tool_args msg :
  keys_set w = true ->
  chat_completions_create w (seed p) = inr r ->
  tool_calls r = tc :: rest ->
  tc_name tc = "execute_kubernetes_query" ->
  json_loads w (tc_arguments tc) = inr tool_args ->
  tool_server_post w TOOL_SERVER_URL tool_args = inl (RequestException msg) ->
  model_inputs (events (fst (run_agent_query w p))) =
    [seed p;
     seed p ++ [Assistant r;
                Tool (tc_id tc) "execute_kubernetes_query"
                  (json_dumps w (JDict [("error", JStr msg)]))]].
Proof.
  intros Hk Hfirst Hcalls Hname Hargs Hpost. unfold seed in *. agent_unfold.
  rewrite keys_guard, Hk. cbn [negb fst snd events messages app].
  rewrite Hfirst, Hcalls, Hname, String.eqb_refl, Hargs.
  cbn [fst snd events messages app]. rewrite Hpost.
  cbn [fst snd events messages app exn_str].
  destruct (chat_completions_create w (_ :: _ :: _ :: _)) as [e|r2]; [destruct e|]; reflexivity.
Qed.

Lemma run_agent_query_tool_failure_witness :
  length (model_inputs
            (events (fst (run_agent_query (world_without_tool_server round_trip_model)
                            "List the pods.")))) = 2.
Proof.
  exact (f_equal (@length _)
    (run_agent_query_tool_failure (world_without_tool_server round_trip_model)
       "List the pods." (asks_for [list_pods_call]) list_pods_call [] pod_args
       "Connection refused" eq_refl eq_refl eq_refl eq_refl eq_refl eq_refl)).
Defined.

(** X17. When the arguments of the requested call do not parse, the
    exception of [json.loads] leaves [run_agent_query]: nothing is posted,
    no tool message is appended and the model is not called again. *)
Theorem run_agent_query_malformed_arguments w p r tc rest e :
  keys_set w = true ->
  chat_completions_create w (seed p) = inr r ->
  tool_calls r = tc :: rest ->
  tc_name tc = "execute_kubernetes_query" ->
  json_loads w (tc_arguments tc) = inl e ->
  snd (run_agent_query w p) = inl e /\
  messages (fst (run_agent_query w p)) = seed p ++ [Assistant r] /\
  tool_posts (events (fst (run_agent_query w p))) = [] /\
  model_inputs (events (fst (run_agent_query w p))) = [seed p].
Proof.
  intros Hk Hfirst Hcalls Hname Hargs. unfold seed in *. agent_unfold.
  rewrite keys_guard, Hk. cbn [negb fst snd events messages app].
  rewrite Hfirst, Hcalls, Hname, String.eqb_refl, Hargs. repeat split.
Qed.

Lemma run_agent_query_malformed_arguments_witness :
  snd (run_agent_query (world_with_bad_arguments round_trip_model) "List the pods.") =
    inl (JSONDecodeError "Expecting value: line 1 column 1 (char 0)").
Proof.
  exact (proj1
    (run_agent_query_malformed_arguments (world_with_bad_arguments round_trip_model)
       "List the pods." (asks_for [list_pods_call]) list_pods_call []
       (JSONDecodeError "Expecting value: line 1 column 1 (char 0)")
       eq_refl eq_refl eq_refl eq_refl eq_refl)).
Defined.

(** X18. When the first model call fails, only a [RequestException] is
    handled (the function returns); any other exception leaves the function.
    Either way the message list is the system prompt and the question. *)
Theorem run_agent_query_model_error w p e :
  keys_set w = true ->
  chat_completions_create w (seed p) = inl e ->
  snd (run_agent_query w p) = (if is_request_exception e then inr tt else inl e) /\
  messages (fst (run_agent_query w p)) = seed p.
Proof.
  intros Hk Hfirst. unfold seed in *. agent_unfold.
  rewrite keys_guard, Hk. cbn [negb fst snd events messages app].
  rewrite Hfirst. destruct e; split; reflexivity.
Qed.

Lemma run_agent_query_model_error_witness :
  snd (run_agent_query (world_of (fun _ => inl (PyException "Connection error.")))
         "List the pods.") = inl (PyException "Connection error.").
Proof.
  exact (proj1
    (run_agent_query_model_error (world_of (fun _ => inl (PyException "Connection error.")))
       "List the pods." (PyException "Connection error.") eq_refl eq_refl)).
Defined.



End LlmAgentMoreFacts.

(** * More on the stateful agent *)

Module LangchainMoreFacts.
Import LlmAgentLangchain LlmAgentLangchainSpec LangchainMoreSpec.

Ltac chat_unfold :=
  unfold chat, start_new_session, history_append, response_get,
    Py.bind, Py.lift, Py.get, Py.modify, Py.ret in *.

(** X20. When the executor returns a response without the key [output],
    [chat] raises a [KeyError] after it has appended the question: the history
    ends with a question that has no answer. *)
Theorem chat_missing_output (w : World) q self resp :
  invoke w (agent_executor self) q (chat_history self) = inr resp ->
  resp !! "output" = None ->
  chat w q self =
    ({| agent_executor := agent_executor self;
        chat_history := chat_history self ++ [HumanMessage q] |},
     inl (KeyError "output")).
Proof.
  intros Hinv Hout. chat_unfold. rewrite Hinv. cbn [agent_executor chat_history].
  rewrite Hout. reflexivity.
Qed.

Lemma chat_missing_output_witness :
  chat executor_mute "Check the pods." __init__ =
    ({| agent_executor := agent_executor __init__;
        chat_history := [HumanMessage "Check the pods."] |},
     inl (KeyError "output")).
Proof.
  apply (chat_missing_output executor_mute "Check the pods." __init__
           {[ "input" := "Check the pods." ]}); reflexivity.
Defined.

(** The three ways a call of [chat] ends. *)
Lemma chat_cases (w : World) q self :
  chat w q self = (self, snd (chat w q self)) \/
  fst (chat w q self) =
    {| agent_executor := agent_executor self;
       chat_history := chat_history self ++ [HumanMessage q] |} \/
  exists out,
    chat w q self =
      ({| agent_executor := agent_executor self;
          chat_history := chat_history self ++ [HumanMessage q; AIMessage out] |},
       inr out).
Proof.
  chat_unfold.
  destruct (invoke w (agent_executor self) q (chat_history self)) as [e|resp];
    [left; reflexivity|].
  cbn [agent_executor chat_history].
  destruct (resp !! "output") as [out|]; [|right; left; reflexivity].
  right. right. exists out. cbn [agent_executor chat_history].
  rewrite <- app_assoc. reflexivity.
Qed.

(** X21. A turn only appends: whatever the executor does, the history
    before the turn is a prefix of the history after it, at most two messages
    are added, and the executor of the agent is the same. *)
Theorem chat_history_append_only (w : World) q self :
  chat_history self `prefix_of` chat_history (fst (chat w q self)) /\
  length (chat_history (fst (chat w q self))) <= length (chat_history self) + 2 /\
  agent_executor (fst (chat w q self)) = agent_executor self.
Proof.
  destruct (chat_cases w q self) as [H|[H|[out H]]]; rewrite H;
    cbn [fst chat_history agent_executor].
  - split; [reflexivity|]. split; [lia|reflexivity].
  - split; [apply prefix_app_r; reflexivity|].
    split; [rewrite length_app; cbn; lia|reflexivity].
  - split; [apply prefix_app_r; reflexivity|].
    split; [rewrite length_app; cbn; lia|reflexivity].
Qed.

Lemma well_paired_app l1 l2 :
  well_paired l1 = true -> well_paired l2 = true -> well_paired (l1 ++ l2) = true.
Proof.
  revert l1. fix IH 1. intros [|[q|a] [|[q'|a'] l1]]; cbn; try discriminate; auto.
Qed.

Lemma run_op_well_paired (w : World) o self :
  answers w ->
  well_paired (chat_history self) = true ->
  well_paired (chat_history (run_op w o self)) = true.
Proof.
  intros Hw Hp. destruct o as [q|]; [|reflexivity]. cbn [run_op]. chat_unfold.
  destruct (invoke w (agent_executor self) q (chat_history self)) as [e|resp] eqn:Hinv;
    [exact Hp|].
  cbn [agent_executor chat_history].
  destruct (Hw _ _ _ _ Hinv) as [out ->]. cbn [fst chat_history].
  rewrite <- app_assoc. apply well_paired_app; [exact Hp|reflexivity].
Qed.

(** X22. With an executor whose responses always carry an output, any
    sequence of turns and resets keeps the history a sequence of completed
    turns, each a question followed by its answer; failed turns leave no
    trace. *)
Theorem session_well_paired (w : World) ops self :
  answers w ->
  well_paired (chat_history self) = true ->
  well_paired (chat_history (run_ops w ops self)) = true.
Proof.
  intros Hw. unfold run_ops. revert self.
  induction ops as [|o ops IH]; intros self Hp; [exact Hp|].
  cbn [fold_left]. apply IH. apply run_op_well_paired; assumption.
Qed.

Lemma session_well_paired_witness :
  answers executor_up /\
  well_paired
    (chat_history
       (run_ops executor_up [Chat "Check the pods."; Reset; Chat "And the nodes?"] __init__))
  = true.
Proof.
  assert (H : answers executor_up).
  { intros ex q h resp [= <-]. exists "All pods are running.". reflexivity. }
  split; [exact H|].
  exact (session_well_paired executor_up
           [Chat "Check the pods."; Reset; Chat "And the nodes?"] __init__ H eq_refl).
Defined.

End LangchainMoreFacts.

(** * The endpoints *)

Module MainFacts.
Import LlmAgentLangchain Main MainSpec MainMoreSpec.

Ltac main_unfold :=
  unfold upload_file, process_query, clear_history, cleanup_all_sessions, cleanup_on_shutdown,
    write_upload, getsize, remove, path_exists, error_response, on_agent,
    set_files, set_session_data, CONFIG_FILE_PATH,
    Py.try_except, Py.bind, Py.lift, Py.ret, Py.raise, Py.modify, Py.get in *;
  cbn [fst snd files session_data sre_agent] in *.

(** X23. An upload always replaces the one configuration file by what was
    copied. When the copy completes, the session's entry is replaced by the
    record of this upload and the response is the confirmation; when the copy
    is interrupted, the response has status 500, the session data is
    untouched, and the file holds the part that was copied: the configuration
    that was there before is lost. *)
Theorem upload_file_effect w file sid s :
  upload_file w file sid s =
    match copy_error file with
    | None =>
        ({| files := <[CONFIG_FILE_PATH := copied file]> (files s);
            session_data := <[sid := session_entry file]> (session_data s);
            sre_agent := sre_agent s |},
         inr (ok (JDict
           [("message", JStr "File uploaded and saved as 'config' successfully.");
            ("saved_as", JStr "config");
            ("original_filename", opt_json (filename file));
            ("filepath", JStr CONFIG_FILE_PATH)])))
    | Some e =>
        ({| files := <[CONFIG_FILE_PATH := copied file]> (files s);
            session_data := session_data s;
            sre_agent := sre_agent s |},
         inr {| status_code := 500;
                content := JDict [("detail",
                  JStr ("Error uploading file: " +:+ str_exn w e))] |})
    end.
Proof.
  unfold session_entry. main_unfold. destruct (copy_error file) as [e|].
  - cbn [fst snd files session_data sre_agent]. rewrite insert_insert_eq. reflexivity.
  - cbn [fst snd files session_data sre_agent]. rewrite !insert_insert_eq.
    destruct (session_data s !! sid) eqn:Hsid; cbn [fst snd files session_data sre_agent];
      rewrite lookup_insert_eq; cbn [fst snd files session_data sre_agent];
      rewrite ?insert_insert_eq; reflexivity.
Qed.

(** Whatever becomes of the copy, the files after an upload are the files
    before it with the configuration replaced by what was copied. *)
Lemma upload_file_files w file sid s :
  files (fst (upload_file w file sid s)) = <[CONFIG_FILE_PATH := copied file]> (files s).
Proof.
  main_unfold. destruct (copy_error file); cbn [fst snd files session_data sre_agent].
  - apply insert_insert_eq.
  - rewrite !insert_insert_eq.
    destruct (session_data s !! sid); cbn [fst snd files session_data sre_agent];
      rewrite lookup_insert_eq; reflexivity.
Qed.

(** A query with the configuration in place is a turn of the agent, and
    its response follows the outcome of the turn. *)
Lemma process_query_with_config w q sid s bytes :
  files s !! CONFIG_FILE_PATH = Some bytes ->
  process_query w q sid s =
    ({| files := files s; session_data := session_data s;
        sre_agent := fst (chat (executor w) q (sre_agent s)) |},
     inr match snd (chat (executor w) q (sre_agent s)) with
         | inl e =>
             {| status_code := 500;
                content := JDict [("detail",
                  JStr ("Error processing query: " +:+ str_exn w e))] |}
         | inr out =>
             ok (JDict
               [("response", JStr out);
                ("query", JStr q);
                ("file_analyzed",
                 JStr ("config (Original: " +:+ format_json w (original_filename_of s sid)
                       +:+ ")"))])
         end).
Proof.
  intros Hfile. main_unfold. rewrite Hfile. cbn [negb].
  destruct (chat (executor w) q (sre_agent s)) as [a [e|out]]; reflexivity.
Qed.

(** X24. Without the configuration file a query is refused with status
    400 and the process is left as it was: the agent is not asked. *)
Theorem process_query_without_config w q sid s :
  files s !! CONFIG_FILE_PATH = None ->
  process_query w q sid s =
    (s, inr {| status_code := 400;
               content := JDict [("detail",
                 JStr "Required file 'config' not found in uploads folder.")] |}).
Proof.
  intros Hnone. main_unfold. rewrite Hnone. reflexivity.
Qed.

Lemma process_query_without_config_witness :
  process_query (main_world LlmAgentLangchainSpec.executor_up) "Check the pods." "s1" fresh =
    (fresh, inr {| status_code := 400;
               content := JDict [("detail",
                 JStr "Required file 'config' not found in uploads folder.")] |}).
Proof.
  exact (process_query_without_config (main_world LlmAgentLangchainSpec.executor_up)
           "Check the pods." "s1" fresh eq_refl).
Defined.

(** X25. With the configuration file in place and an executor that
    answers, a query returns status 200 with the answer, the query and the
    name of the file the session uploaded, and the turn is appended to the
    history of the agent; files and session data are untouched. *)
Theorem process_query_success w q sid s bytes resp out :
  files s !! CONFIG_FILE_PATH = Some bytes ->
  invoke (executor w) (agent_executor (sre_agent s)) q (chat_history (sre_agent s)) = inr resp ->
  resp !! "output" = Some out ->
  process_query w q sid s =
    ({| files := files s; session_data := session_data s;
        sre_agent :=
          {| agent_executor := agent_executor (sre_agent s);
             chat_history := chat_history (sre_agent s) ++ [HumanMessage q; AIMessage out] |} |},
     inr (ok (JDict
       [("response", JStr out);
        ("query", JStr q);
        ("file_analyzed",
         JStr ("config (Original: " +:+ format_json w (original_filename_of s sid) +:+ ")"))]))).
Proof.
  intros Hfile Hinv Hout. main_unfold. rewrite Hfile. cbn [negb].
  rewrite (LlmAgentLangchainFacts.chat_appends_turn (executor w) (sre_agent s) q resp out
             Hinv Hout).
  reflexivity.
Qed.

Lemma process_query_success_witness :
  snd (process_query (main_world LlmAgentLangchainSpec.executor_up) "Check the pods." "alice"
         (fst (upload_file (main_world LlmAgentLangchainSpec.executor_up)
                 kubeconfig "alice" fresh))) =
    inr (ok (JDict
       [("response", JStr "All pods are running.");
        ("query", JStr "Check the pods.");
        ("file_analyzed", JStr "config (Original: admin.conf)")])).
Proof.
  exact (f_equal snd
    (process_query_success (main_world LlmAgentLangchainSpec.executor_up)
       "Check the pods." "alice"
       (fst (upload_file (main_world LlmAgentLangchainSpec.executor_up) kubeconfig "alice" fresh))
       "apiVersion: v1"
       {[ "input" := "Check the pods."; "output" := "All pods are running." ]}
       "All pods are running." eq_refl eq_refl eq_refl)).
Defined.

(** X26. When the executor raises, the query returns status 500 with the
    text of the exception and the process is left as it was: the question of
    the failed turn is not in the history. *)
Theorem process_query_agent_failure w q sid s bytes e :
  files s !! CONFIG_FILE_PATH = Some bytes ->
  invoke (executor w) (agent_executor (sre_agent s)) q (chat_history (sre_agent s)) = inl e ->
  process_query w q sid s =
    (s, inr {| status_code := 500;
               content := JDict [("detail",
                 JStr ("Error processing query: " +:+ str_exn w e))] |}).
Proof.
  intros Hfile Hinv. main_unfold. rewrite Hfile. cbn [negb].
  unfold chat, Py.bind, Py.lift, Py.get. rewrite Hinv. destruct s; reflexivity.
Qed.

Lemma process_query_agent_failure_witness :
  snd (process_query (main_world LlmAgentLangchainSpec.executor_down) "Check the pods." "alice"
         (fst (upload_file (main_world LlmAgentLangchainSpec.executor_down)
                 kubeconfig "alice" fresh))) =
    inr {| status_code := 500;
           content := JDict [("detail",
             JStr "Error processing query: Connection error.")] |}.
Proof.
  exact (f_equal snd
    (process_query_agent_failure (main_world LlmAgentLangchainSpec.executor_down)
       "Check the pods." "alice"
       (fst (upload_file (main_world LlmAgentLangchainSpec.executor_down)
               kubeconfig "alice" fresh))
       "apiVersion: v1" (PyException "Connection error.") eq_refl eq_refl)).
Defined.

(** X27. All sessions talk to one agent: after a query of one session, a
    query of any other session is answered on top of the first one's turn,
    and the history holds both turns in order. *)
Theorem process_query_shares_history w q1 sid1 q2 sid2 s bytes r1 out1 r2 out2 :
  files s !! CONFIG_FILE_PATH = Some bytes ->
  invoke (executor w) (agent_executor (sre_agent s)) q1 (chat_history (sre_agent s)) = inr r1 ->
  r1 !! "output" = Some out1 ->
  invoke (executor w) (agent_executor (sre_agent s)) q2
    (chat_history (sre_agent s) ++ [HumanMessage q1; AIMessage out1]) = inr r2 ->
  r2 !! "output" = Some out2 ->
  chat_history (sre_agent (fst (process_query w q2 sid2 (fst (process_query w q1 sid1 s))))) =
    chat_history (sre_agent s) ++
    [HumanMessage q1; AIMessage out1; HumanMessage q2; AIMessage out2].
Proof.
  intros Hfile H1 Ho1 H2 Ho2.
  rewrite (process_query_with_config w q1 sid1 s bytes Hfile). cbn [fst].
  rewrite (LlmAgentLangchainFacts.chat_appends_turn (executor w) (sre_agent s) q1 r1 out1
             H1 Ho1). cbn [fst].
  set (s1 := {| files := files s; session_data := session_data s;
                 sre_agent :=
                   {| agent_executor := agent_executor (sre_agent s);
                      chat_history :=
                        chat_history (sre_agent s) ++ [HumanMessage q1; AIMessage out1] |} |}).
  rewrite (process_query_with_config w q2 sid2 s1 bytes Hfile). cbn [fst sre_agent s1].
  rewrite (LlmAgentLangchainFacts.chat_appends_turn (executor w)
             {| agent_executor := agent_executor (sre_agent s);
                chat_history :=
                  chat_history (sre_agent s) ++ [HumanMessage q1; AIMessage out1] |}
             q2 r2 out2 H2 Ho2).
  cbn [fst chat_history]. rewrite <- app_assoc. reflexivity.
Qed.

Lemma process_query_shares_history_witness :
  chat_history
    (sre_agent
       (fst (process_query (main_world LlmAgentLangchainSpec.executor_up) "And the nodes?" "bob"
               (fst (process_query (main_world LlmAgentLangchainSpec.executor_up)
                       "Check the pods." "alice"
                       (fst (upload_file (main_world LlmAgentLangchainSpec.executor_up)
                               kubeconfig "alice" fresh))))))) =
    [HumanMessage "Check the pods."; AIMessage "All pods are running.";
     HumanMessage "And the nodes?"; AIMessage "All pods are running."].
Proof.
  exact (process_query_shares_history (main_world LlmAgentLangchainSpec.executor_up)
           "Check the pods." "alice" "And the nodes?" "bob"
           (fst (upload_file (main_world LlmAgentLangchainSpec.executor_up)
                   kubeconfig "alice" fresh))
           "apiVersion: v1"
           {[ "input" := "Check the pods."; "output" := "All pods are running." ]}
           "All pods are running."
           {[ "input" := "And the nodes?"; "output" := "All pods are running." ]}
           "All pods are running." eq_refl eq_refl eq_refl eq_refl eq_refl).
Defined.

Lemma clear_history_run w sid s :
  clear_history w sid s =
    (cleared sid s,
     inr (ok (JDict
       [("message", JStr "Upload history cleared successfully. 'config' deleted.")]))).
Proof.
  unfold cleared. main_unfold. unfold start_new_session, Py.modify.
  cbn [fst snd files session_data sre_agent].
  destruct (files s !! path_join UPLOAD_DIR CONFIG_FILENAME) eqn:Hf;
    cbn [fst snd files session_data sre_agent]; rewrite ?Hf;
    cbn [fst snd files session_data sre_agent];
    destruct (session_data s !! sid) eqn:Hs;
    cbn [fst snd files session_data sre_agent];
    rewrite ?(delete_id (files s)) by exact Hf;
    rewrite ?(delete_id (session_data s)) by exact Hs; reflexivity.
Qed.

(** X28. Clearing from one session removes that session's entry and
    nothing else from the session data, but it removes the one configuration
    file and empties the one history for everybody: the next query of any
    session is refused with status 400. Clearing again changes nothing. *)
Theorem clear_history_effect w sid s sid' q :
  let s' := fst (clear_history w sid s) in
  files s' = delete CONFIG_FILE_PATH (files s) /\
  session_data s' = delete sid (session_data s) /\
  chat_history (sre_agent s') = [] /\
  fst (clear_history w sid s') = s' /\
  process_query w q sid' s' =
    (s', inr {| status_code := 400;
                content := JDict [("detail",
                  JStr "Required file 'config' not found in uploads folder.")] |}).
Proof.
  cbv zeta. rewrite !clear_history_run. cbn [fst].
  assert (Hf : files (cleared sid s) !! CONFIG_FILE_PATH = None) by apply lookup_delete_eq.
  split; [reflexivity|]. split; [reflexivity|]. split; [reflexivity|]. split.
  - unfold cleared.
    cbn [files session_data sre_agent agent_executor]. rewrite !delete_delete_eq. reflexivity.
  - unfold CONFIG_FILE_PATH in Hf. main_unfold. rewrite Hf. reflexivity.
Qed.

Lemma cleanup_all_sessions_effect w s :
  cleanup_all_sessions w s =
    ({| files := delete CONFIG_FILE_PATH (files s);
        session_data := ∅;
        sre_agent := {| agent_executor := agent_executor (sre_agent s); chat_history := [] |} |},
     inr (ok (JDict
       [("message", JStr ("All sessions cleaned up successfully. Removed " +:+
                          match files s !! CONFIG_FILE_PATH with
                          | Some _ => "1"
                          | None => "0"
                          end +:+ " file(s)."));
        ("deleted_count", JNum match files s !! CONFIG_FILE_PATH with
                               | Some _ => 1
                               | None => 0
                               end)]))).
Proof.
  main_unfold. unfold start_new_session, Py.modify.
  cbn [fst snd files session_data sre_agent].
  destruct (files s !! path_join UPLOAD_DIR CONFIG_FILENAME) eqn:Hf;
    cbn [fst snd files session_data sre_agent]; rewrite ?Hf;
    cbn [fst snd files session_data sre_agent];
    rewrite ?(delete_id (files s)) by exact Hf; reflexivity.
Qed.

(** X29. No endpoint lets an exception out: an upload, a query, a clear
    and a clean-up always return a response, with status 200, 400 or 500,
    whatever the file, the executor and the state of the process; the
    shutdown hook always returns. *)
Theorem endpoints_never_raise w file q sid s :
  served (snd (upload_file w file sid s)) = true /\
  served (snd (process_query w q sid s)) = true /\
  served (snd (clear_history w sid s)) = true /\
  served (snd (cleanup_all_sessions w s)) = true /\
  snd (cleanup_on_shutdown s) = inr tt.
Proof.
  split; [|split; [|split; [|split]]].
  - main_unfold. destruct (copy_error file); cbn [fst snd files session_data sre_agent];
      [reflexivity|].
    rewrite !insert_insert_eq.
    destruct (session_data s !! sid); cbn [fst snd files session_data sre_agent];
      rewrite lookup_insert_eq; reflexivity.
  - main_unfold. destruct (files s !! _); cbn [negb]; [|reflexivity].
    destruct (chat (executor w) q (sre_agent s)) as [a [e|out]]; reflexivity.
  - rewrite clear_history_run. reflexivity.
  - rewrite cleanup_all_sessions_effect. reflexivity.
  - main_unfold. destruct (files s !! _) eqn:Hf; [|reflexivity].
    cbn [fst snd files session_data sre_agent]. rewrite Hf. reflexivity.
Qed.

(** X30. The upload stores the configuration at [uploads/config] and the
    dispatcher loads it from [tmp/uploads/config]: when nothing is at the
    second path, an upload does not change that, and with a loader that fails
    on a missing file every query of the dispatcher ends in the
    unexpected-error envelope without touching the API. *)
Theorem upload_does_not_provision_dispatcher w file sid s
    (kw : Kubconnect.World) rt ns name :
  files s !! "tmp/uploads/config" = None ->
  (forall path, files (fst (upload_file w file sid s)) !! path = None ->
     exists e, Kubconnect.load_kube_config kw path = inl e /\ MoreSpec.plain e = true) ->
  files (fst (upload_file w file sid s)) !! "tmp/uploads/config" = None /\
  exists e,
    snd (Kubconnect.execute_k8s_query kw rt ns name) =
      inr (Kubconnect.error_result ("An unexpected error occurred: " +:+ exn_str e)) /\
    KubconnectSpec.api_events
      (Kubconnect.events (fst (Kubconnect.execute_k8s_query kw rt ns name))) = [].
Proof.
  intros Hnone Hload.
  assert (Hstill : files (fst (upload_file w file sid s)) !! "tmp/uploads/config" = None).
  { rewrite upload_file_files, lookup_insert_ne; [exact Hnone|].
    vm_compute. discriminate. }
  split; [exact Hstill|].
  destruct (Hload _ Hstill) as (e & He & Hplain). exists e.
  assert (Hmap : KubconnectSpec.resource_map_of kw = inl e).
  { unfold KubconnectSpec.resource_map_of. rewrite He. reflexivity. }
  split; [exact (KubconnectMoreFacts.setup_failure_result kw rt ns name e Hmap Hplain)|].
  rewrite KubconnectFacts.api_events_query, Hmap. reflexivity.
Qed.

Lemma upload_does_not_provision_dispatcher_witness :
  files (fst (upload_file (main_world LlmAgentLangchainSpec.executor_up) kubeconfig "alice"
                fresh)) !! "tmp/uploads/config" = None /\
  exists e,
    snd (Kubconnect.execute_k8s_query
           (MoreSpec.cluster_on
              (files (fst (upload_file (main_world LlmAgentLangchainSpec.executor_up)
                             kubeconfig "alice" fresh))))
           "pod" "default" None) =
      inr (Kubconnect.error_result ("An unexpected error occurred: " +:+ exn_str e)) /\
    KubconnectSpec.api_events
      (Kubconnect.events
         (fst (Kubconnect.execute_k8s_query
                 (MoreSpec.cluster_on
                    (files (fst (upload_file (main_world LlmAgentLangchainSpec.executor_up)
                                   kubeconfig "alice" fresh))))
                 "pod" "default" None))) = [].
Proof.
  apply (upload_does_not_provision_dispatcher
           (main_world LlmAgentLangchainSpec.executor_up) kubeconfig "alice" fresh
           (MoreSpec.cluster_on
              (files (fst (upload_file (main_world LlmAgentLangchainSpec.executor_up)
                             kubeconfig "alice" fresh))))
           "pod" "default" None).
  - reflexivity.
  - intros path Hpath.
    exists (PyException "Invalid kube-config file. No configuration found.").
    split; [|reflexivity]. unfold MoreSpec.cluster_on. cbn [Kubconnect.load_kube_config].
    rewrite Hpath. reflexivity.
Defined.

End MainFacts.
